(** * Fleet maintenance service: validators, authentication decorators,
      route handlers and the status engine

    A shallow embedding of [src/maintenanceService]:

    - [app/routes/maintainance_route.py]: the blueprint handlers and the two
      validators [validate_date] and [validate_mileage];
    - [app/routes/maintenance_api.py]: the flask-restx resources;
    - [app/utils/auth.py]: the decorators [require_auth] and [require_role];
    - [config.py]: the configuration keys the decorators read.

    The service layer the handlers call, [app/services], is not among these
    files; module [Service] models it from the specification.

    Python values are modelled as follows.  Integers are [Z].  A [str] is a
    [string] whose characters are the code points below 256 (the range a WSGI
    server hands over for a header, and the range in which the validators'
    inputs are modelled).  An exception is its class name together with
    [str(e)].  A call that may raise returns a [result]. *)

From Stdlib Require Import ZArith List String Ascii Bool Lia DecimalString.
Import ListNotations.

Set Implicit Arguments.
Set Warnings "-register-all".

Open Scope string_scope.
Open Scope Z_scope.

(** ** Python exceptions and results *)

Module Py.

Record exn : Type := mk_exn { exn_class : string; exn_str : string }.

Definition ValueError (msg : string) : exn := mk_exn "ValueError" msg.
Definition IndexError (msg : string) : exn := mk_exn "IndexError" msg.
Definition AttributeError (msg : string) : exn := mk_exn "AttributeError" msg.
Definition TypeError (msg : string) : exn := mk_exn "TypeError" msg.

Inductive result (A : Type) : Type :=
| Return (a : A)
| Raise (e : exn).

Arguments Return {A} a.
Arguments Raise {A} e.

Definition bind {A B : Type} (r : result A) (k : A -> result B) : result B :=
  match r with
  | Return a => k a
  | Raise e => Raise e
  end.

(** [raises_class r c]: the call ended in an exception of class [c]. *)
Definition raises_class {A : Type} (r : result A) (c : string) : Prop :=
  exists e, r = Raise e /\ exn_class e = c.

(** [ord(c)], the code point of a character. *)
Definition ord (c : ascii) : Z := Z.of_N (N_of_ascii c).

(** JSON values: token payloads and response bodies. *)
Inductive json : Type :=
| JNull
| JBool (b : bool)
| JInt (n : Z)
| JStr (s : string)
| JList (l : list json)
| JDict (d : list (string * json)).

(** [d.get(key)] on the association list behind a dict: the first binding. *)
Fixpoint dict_get (key : string) (d : list (string * json)) : option json :=
  match d with
  | [] => None
  | (k, v) :: d' => if String.eqb k key then Some v else dict_get key d'
  end.

End Py.

Import Py.

(** ** [app/utils/validators.py] (carried in maintainance_route.py) *)

Module Validators.

(** *** [validate_mileage] *)

Definition msg_non_negative : string := "Mileage values must be non-negative".
Definition msg_due_lt_current : string :=
  "Due mileage must be greater than or equal to current mileage".

Definition validate_mileage (current due : Z) : result bool :=
  if (current <? 0) || (due <? 0) then Raise (ValueError msg_non_negative)
  else if due <? current then Raise (ValueError msg_due_lt_current)
  else Return true.

(** *** [datetime.strptime(s, '%Y-%m-%d')]

    The library call is modelled after CPython's [_strptime]: the format is
    compiled to the regular expression
    [(?P<Y>\d\d\d\d)-(?P<m>1[0-2]|0[1-9]|[1-9])-(?P<d>3[0-1]|[1-2]\d|0[1-9]|[1-9]| [1-9])],
    matched at the start of the string with backtracking; the match must
    consume the whole string; the three groups are converted with [int] and
    handed to [datetime.date], which checks the calendar.  Each failure is a
    [ValueError]. *)

(** [int(c)] for a character that [\d] matches: among the code points
    below 256 these are 0x30 to 0x39. *)
Definition digit_of (c : ascii) : option Z :=
  if (48 <=? ord c) && (ord c <=? 57) then Some (ord c - 48) else None.

(** A digit whose value lies in [lo..hi], as a character class [[lo-hi]]. *)
Definition digit_in (lo hi : Z) (c : ascii) : option Z :=
  match digit_of c with
  | Some v => if (lo <=? v) && (v <=? hi) then Some v else None
  | None => None
  end.

(** Each group returns its matches in the order the regex engine tries the
    alternatives: the value read and the rest of the input. *)
Definition group_Y (s : string) : list (Z * string) :=
  match s with
  | String a (String b (String c (String d rest))) =>
      match digit_of a, digit_of b, digit_of c, digit_of d with
      | Some va, Some vb, Some vc, Some vd =>
          [(1000 * va + 100 * vb + 10 * vc + vd, rest)]
      | _, _, _, _ => []
      end
  | _ => []
  end.

(** Two characters [c1 c2] with [c1] a digit in [lo1..hi1] and [c2] one in
    [lo2..hi2]. *)
Definition two_digits (lo1 hi1 lo2 hi2 : Z) (s : string) : list (Z * string) :=
  match s with
  | String a (String b rest) =>
      match digit_in lo1 hi1 a, digit_in lo2 hi2 b with
      | Some va, Some vb => [(10 * va + vb, rest)]
      | _, _ => []
      end
  | _ => []
  end.

Definition one_digit (lo hi : Z) (s : string) : list (Z * string) :=
  match s with
  | String a rest =>
      match digit_in lo hi a with
      | Some va => [(va, rest)]
      | None => []
      end
  | _ => []
  end.

(** [ [1-9]]: a space and a digit; [int(' 5')] is 5. *)
Definition space_digit (s : string) : list (Z * string) :=
  match s with
  | String " "%char rest => one_digit 1 9 rest
  | _ => []
  end.

Definition group_m (s : string) : list (Z * string) :=
  (two_digits 1 1 0 2 s ++ two_digits 0 0 1 9 s ++ one_digit 1 9 s)%list.

Definition group_d (s : string) : list (Z * string) :=
  (two_digits 3 3 0 1 s ++ two_digits 1 2 0 9 s ++ two_digits 0 0 1 9 s
     ++ one_digit 1 9 s ++ space_digit s)%list.

Definition literal (c : ascii) (s : string) : list string :=
  match s with
  | String a rest => if Ascii.eqb a c then [rest] else []
  | _ => []
  end.

(** All matches of the whole expression, in the engine's order; [re.match]
    returns the first. *)
Definition regex_matches (s : string) : list (Z * Z * Z * string) :=
  flat_map (fun '(y, r1) =>
    flat_map (fun r2 =>
      flat_map (fun '(m, r3) =>
        flat_map (fun r4 =>
          map (fun '(d, r5) => (y, m, d, r5)) (group_d r4))
          (literal "-" r3))
        (group_m r2))
      (literal "-" r1))
    (group_Y s).

Record date : Type := mk_date { year : Z; month : Z; day : Z }.

Definition is_leap (y : Z) : bool :=
  (y mod 4 =? 0) && (negb (y mod 100 =? 0) || (y mod 400 =? 0)).

Definition days_in_month (y m : Z) : Z :=
  if m =? 2 then (if is_leap y then 29 else 28)
  else if (m =? 4) || (m =? 6) || (m =? 9) || (m =? 11) then 30
  else 31.

(** The check of [datetime.date(y, m, d)]: MINYEAR = 1, MAXYEAR = 9999. *)
Definition valid_date (y m d : Z) : bool :=
  (1 <=? y) && (y <=? 9999) && (1 <=? m) && (m <=? 12)
  && (1 <=? d) && (d <=? days_in_month y m).

Definition strptime_ymd (s : string) : result date :=
  match regex_matches s with
  | [] => Raise (ValueError "time data does not match format '%Y-%m-%d'")
  | (y, m, d, rest) :: _ =>
      match rest with
      | EmptyString =>
          if valid_date y m d then Return (mk_date y m d)
          else Raise (ValueError "day is out of range for month")
      | String _ _ => Raise (ValueError "unconverted data remains")
      end
  end.

(** *** [validate_date] *)

Definition msg_invalid_date : string := "Invalid date format. Expected YYYY-MM-DD".

Definition validate_date (date_str : string) : result date :=
  match strptime_ymd date_str with
  | Return d => Return d
  | Raise e =>
      if String.eqb (exn_class e) "ValueError"
      then Raise (ValueError msg_invalid_date)
      else Raise e
  end.

End Validators.

(** ** [config.py] *)

Module Config.

(** The two keys the decorators read.  [OIDC_ISSUER] is [os.environ.get],
    so it may be absent; [AUTH_DISABLED] is a [bool]. *)
Record config : Type := mk_config {
  AUTH_DISABLED : bool;
  OIDC_ISSUER : option string
}.

Definition ITEMS_PER_PAGE : Z := 10.

End Config.

Import Config.

(** ** [app/utils/auth.py] *)

Module Auth.

(** *** The string operations the decorator uses *)

(** [c.isspace()] for a code point below 256. *)
Definition is_space (c : ascii) : bool :=
  let n := ord c in
  ((9 <=? n) && (n <=? 13)) || ((28 <=? n) && (n <=? 32))
  || (n =? 133) || (n =? 160).

(** [s] holds whitespace only. *)
Fixpoint all_space (s : string) : bool :=
  match s with
  | EmptyString => true
  | String c rest => is_space c && all_space rest
  end.

(** [s.split()]: the maximal runs of characters that are not whitespace.
    [cur] is the run being read, if any. *)
Fixpoint split_from (cur : option string) (s : string) : list string :=
  match s with
  | EmptyString =>
      match cur with
      | Some w => [w]
      | None => []
      end
  | String c rest =>
      if is_space c then
        match cur with
        | Some w => w :: split_from None rest
        | None => split_from None rest
        end
      else
        match cur with
        | Some w => split_from (Some (w ++ String c EmptyString)) rest
        | None => split_from (Some (String c EmptyString)) rest
        end
  end.

Definition split (s : string) : list string := split_from None s.

(** [c.lower()] for a code point below 256: A-Z and the upper-case letters
    of Latin-1 (0xC0-0xDE but the multiplication sign 0xD7). *)
Definition lower_char (c : ascii) : ascii :=
  let n := ord c in
  if ((65 <=? n) && (n <=? 90))
     || ((192 <=? n) && (n <=? 222) && negb (n =? 215))
  then ascii_of_N (Z.to_N (n + 32))
  else c.

Fixpoint lower (s : string) : string :=
  match s with
  | EmptyString => EmptyString
  | String c rest => String (lower_char c) (lower rest)
  end.

(** [p in s] for two strings. *)
Fixpoint is_substring (p s : string) : bool :=
  String.prefix p s
  || match s with
     | EmptyString => false
     | String _ rest => is_substring p rest
     end.

(** Truth value of an optional string ([None] and [''] are false). *)
Definition truthy (o : option string) : bool :=
  match o with
  | Some (String _ _) => true
  | _ => false
  end.

(** *** The request, [flask.g] and views *)

Record request : Type := mk_request {
  method : string;
  authorization : option string;        (* headers.get('Authorization', None) *)
  args : list (string * string)         (* the query string, in order *)
}.

(** A decoded token payload is a JSON object. *)
Definition claims : Type := list (string * json).

(** [flask.g]: [user = None] when the attribute is not set. *)
Record flask_g : Type := mk_g { user : option claims }.

Definition g_empty : flask_g := mk_g None.

(** What a call of a view ends in. *)
Inductive reply (B : Type) : Type :=
| Response (body : B) (status : Z)          (* [return body, status] *)
| Aborted (code : Z) (message : string)     (* [abort(code, message)] *)
| Uncaught (e : exn).                       (* an exception leaves the view *)

Arguments Response {B} body status.
Arguments Aborted {B} code message.
Arguments Uncaught {B} e.

(** The state a view runs in: [flask.g] and the world [W] behind the service
    layer (the store and the clock). *)
Record ctx (W : Type) : Type := mk_ctx { g : flask_g; world : W }.

Definition view (W B : Type) : Type := ctx W -> reply B * ctx W.

Definition set_user {W : Type} (p : claims) (st : ctx W) : ctx W :=
  mk_ctx (mk_g (Some p)) (world st).

(** *** [jwt.decode(token, options={"verify_signature": False})]

    The library call is a parameter of the decorator: it sees the token
    only, and ends in the payload or in one of the exceptions the decorator
    catches.  Which tokens end in which exception is the library's matter
    and is not fixed here; with the signature check switched off PyJWT
    validates no claim either, so a token past its [exp] decodes like any
    other. *)
Inductive jwt_outcome : Type :=
| Decoded (payload : claims)
| ExpiredSignatureError
| InvalidTokenError
| OtherException.

Definition decoder : Type := string -> jwt_outcome.

(** A header that splits into the word "bearer", in any case, and one
    token: the headers that pass the checks of [require_auth]. *)
Definition well_formed_bearer (header token : string) : Prop :=
  exists b, split header = [b; token] /\ lower b = "bearer".

(** *** [get_public_keys]

    [http_get] is [requests.get(url, timeout=5)]: the status code and the
    JSON body, or [None] when the call raises.  No other definition of
    this module calls [get_public_keys]. *)
Definition get_public_keys (http_get : string -> option (Z * json))
    (cfg : config) : option json :=
  match OIDC_ISSUER cfg with
  | Some (String c rest) =>
      match http_get (String c rest ++ "/protocol/openid-connect/certs") with
      | Some (code, jwks) => if code =? 200 then Some jwks else None
      | None => None
      end
  | _ => None
  end.

(** *** [require_auth]

    Logging is left out: no view reads the log. *)
Definition require_auth {W B : Type} (jwt_decode : decoder) (cfg : config)
    (req : request) (f : view W B) : view W B :=
  fun st =>
    if String.eqb (method req) "OPTIONS" then f st
    else if AUTH_DISABLED cfg then f st
    else
      match authorization req with
      | None => (Aborted 401 "Authorization header is expected", st)
      | Some EmptyString => (Aborted 401 "Authorization header is expected", st)
      | Some auth_header =>
          match split auth_header with
          | [] => (Uncaught (IndexError "list index out of range"), st)
          | p0 :: rest =>
              if negb (String.eqb (lower p0) "bearer") then
                (Aborted 401 "Authorization header must start with Bearer", st)
              else
                match rest with
                | [] => (Aborted 401 "Token not found", st)
                | [token] =>
                    if truthy (OIDC_ISSUER cfg) then
                      match jwt_decode token with
                      | Decoded payload => f (set_user payload st)
                      | ExpiredSignatureError => (Aborted 401 "Token is expired", st)
                      | InvalidTokenError => (Aborted 401 "Invalid token", st)
                      | OtherException => (Aborted 401 "Token invalid", st)
                      end
                    else f st
                | _ :: _ :: _ =>
                    (Aborted 401 "Authorization header must be Bearer token", st)
                end
          end
      end.

(** *** [require_role] *)

(** [type(v).__name__] of the Python value a JSON value decodes to. *)
Definition type_name (v : json) : string :=
  match v with
  | JNull => "NoneType"
  | JBool _ => "bool"
  | JInt _ => "int"
  | JStr _ => "str"
  | JList _ => "list"
  | JDict _ => "dict"
  end.

(** [role not in roles], negated: membership in whatever JSON value the
    payload holds under [realm_access.roles].  The text of the TypeError is
    CPython's up to 3.13. *)
Definition role_in (role : string) (roles : json) : result bool :=
  match roles with
  | JList l =>
      Return (existsb (fun j => match j with
                                | JStr s => String.eqb s role
                                | _ => false
                                end) l)
  | JStr s => Return (is_substring role s)
  | JDict d =>
      Return (match dict_get role d with Some _ => true | None => false end)
  | other =>
      Raise (TypeError ("argument of type '" ++ type_name other ++ "' is not iterable"))
  end.

(** [g.user.get('realm_access', {}).get('roles', [])]. *)
Definition roles_of (payload : claims) : result json :=
  match dict_get "realm_access" payload with
  | None => Return (JList [])
  | Some (JDict realm_access) =>
      match dict_get "roles" realm_access with
      | None => Return (JList [])
      | Some roles => Return roles
      end
  | Some other =>
      Raise (AttributeError ("'" ++ type_name other ++ "' object has no attribute 'get'"))
  end.

(** The two lookups and the membership test of the decorator. *)
Definition has_role (role : string) (payload : claims) : result bool :=
  bind (roles_of payload) (role_in role).

Definition require_role {W B : Type} (cfg : config) (role : string)
    (f : view W B) : view W B :=
  fun st =>
    if AUTH_DISABLED cfg then f st
    else
      match user (g st) with
      | None => (Aborted 401 "User not authenticated", st)
      | Some [] => (Aborted 401 "User not authenticated", st)
      | Some payload =>
          match has_role role payload with
          | Raise e => (Uncaught e, st)
          | Return false =>
              (Aborted 403 ("Insufficient permissions: " ++ role ++ " role required"), st)
          | Return true => f st
          end
      end.

End Auth.

Import Auth.

(** ** The data model ([maintenance_item_model], [pagination_model]) *)

Module Model.

Inductive Status : Type :=
| overdue | due_soon | scheduled | in_progress | completed | cancelled.

Inductive Priority : Type := low | medium | high | critical.

Definition status_name (s : Status) : string :=
  match s with
  | overdue => "overdue" | due_soon => "due_soon" | scheduled => "scheduled"
  | in_progress => "in_progress" | completed => "completed"
  | cancelled => "cancelled"
  end.

Definition priority_name (p : Priority) : string :=
  match p with
  | low => "low" | medium => "medium" | high => "high" | critical => "critical"
  end.

Definition status_eqb (a b : Status) : bool :=
  match a, b with
  | overdue, overdue | due_soon, due_soon | scheduled, scheduled
  | in_progress, in_progress | completed, completed
  | cancelled, cancelled => true
  | _, _ => false
  end.

(** The fields of a maintenance item the status engine and the filters
    read.  Dates are day numbers. *)
Record item : Type := mk_item {
  item_id : string;
  vehicle_id : string;
  status : Status;
  priority : Priority;
  due_date : Z;
  current_mileage : Z;
  due_mileage : Z;
  assigned_to : option string;
  updated_at : Z
}.

Definition set_status (s : Status) (at_ : Z) (i : item) : item :=
  mk_item (item_id i) (vehicle_id i) s (priority i) (due_date i)
          (current_mileage i) (due_mileage i) (assigned_to i) at_.

(** [pagination_model]. *)
Record paginated : Type := mk_paginated {
  items : list item;
  total : Z;
  page : Z;
  per_page : Z;
  pages : Z
}.

(** The filters dict the list handlers build. *)
Record filters : Type := mk_filters {
  f_vehicle : option string;
  f_status : option (list string);
  f_priority : option (list string);
  f_assignedTo : option string
}.

(** A response body: the service's pagination dict, or a JSON object. *)
Inductive body : Type :=
| Page (p : paginated)
| Json (j : json).

(** The world behind the service layer: the clock and the table of
    maintenance items. *)
Record store : Type := mk_store { now : Z; table : list item }.

(** [MaintenanceService], as the handlers call it: each call may raise,
    and may change the world. *)
Record service (W : Type) : Type := mk_service {
  get_all_maintenance_items : filters -> Z -> Z -> W -> result paginated * W;
  update_maintenance_status_bulk : W -> result Z * W
}.

End Model.

Import Model.

(** ** [MaintenanceService]: status engine, bulk update and listing

    [app/services/maintainance_service.py] is not among the source files:
    the handlers import it and call it.  Every definition of this module is
    modelled from the spec (sections 4.1 and 4.2). *)

Module Service.

(** Modelled from the spec: the configurable "soon" window (in days) and
    mileage margin of the missing status engine (section 4.1). *)
Record engine_config : Type := mk_engine {
  soon_days : Z;
  mileage_margin : Z
}.

(** Modelled from the spec: the terminal statuses of the missing status
    engine (glossary). *)
Definition is_terminal (s : Status) : bool :=
  match s with
  | completed | cancelled => true
  | _ => false
  end.

(** Modelled from the spec: the overdue test of the missing status engine,
    due date before now or current mileage at least the due mileage. *)
Definition past_due (now_ due_date_ due_mileage_ current_mileage_ : Z) : bool :=
  (due_date_ <? now_) || (due_mileage_ <=? current_mileage_).

(** Modelled from the spec: the due-soon test of the missing status
    engine, due date within the window or mileage within the margin. *)
Definition near_due (ec : engine_config)
    (now_ due_date_ due_mileage_ current_mileage_ : Z) : bool :=
  (due_date_ - now_ <=? soon_days ec)
  || (due_mileage_ - current_mileage_ <=? mileage_margin ec).

(** Modelled from the spec: the status derivation of
    [app/services/maintainance_service.py], which is not among the source
    files (section 4.1).  Terminal statuses are kept; otherwise overdue, then
    due soon, then scheduled, or in progress when that was set. *)
Definition derive_status (ec : engine_config)
    (now_ due_date_ due_mileage_ current_mileage_ : Z) (prior : Status) : Status :=
  if is_terminal prior then prior
  else if past_due now_ due_date_ due_mileage_ current_mileage_ then overdue
  else if near_due ec now_ due_date_ due_mileage_ current_mileage_ then due_soon
  else match prior with
       | in_progress => in_progress
       | _ => scheduled
       end.

(** Modelled from the spec: the derivation of the missing status engine
    on the fields of a row. *)
Definition derive_item (ec : engine_config) (now_ : Z) (i : item) : Status :=
  derive_status ec now_ (due_date i) (due_mileage i) (current_mileage i) (status i).

(** Modelled from the spec: the bulk update of the same missing module
    (section 4.1): every non-terminal item is recomputed, an item is written
    only when its status changed, and the number of written items is
    returned. *)
Fixpoint bulk_scan (ec : engine_config) (now_ : Z) (rows : list item)
    : list item * Z :=
  match rows with
  | [] => ([], 0)
  | i :: rest =>
      let '(rest', n) := bulk_scan ec now_ rest in
      if is_terminal (status i) then (i :: rest', n)
      else
        let s := derive_item ec now_ i in
        if status_eqb s (status i) then (i :: rest', n)
        else (set_status s now_ i :: rest', n + 1)
  end.

(** Modelled from the spec: [update_maintenance_status_bulk] of the
    missing module, the scan at the time of the clock. *)
Definition bulk_update (ec : engine_config) (w : store) : result Z * store :=
  let '(rows, n) := bulk_scan ec (now w) (table w) in
  (Return n, mk_store (now w) rows).

Definition in_names (name : string) (names : list string) : bool :=
  existsb (String.eqb name) names.

Definition opt_eqb (a : option string) (b : string) : bool :=
  match a with
  | Some x => String.eqb x b
  | None => false
  end.

(** Modelled from the spec: filtering of the same missing module (section
    4.2): the filters are conjoined and an absent filter is no constraint. *)
Definition matches (f : filters) (i : item) : bool :=
  match f_vehicle f with Some v => String.eqb (vehicle_id i) v | None => true end
  && match f_status f with
     | Some l => in_names (status_name (status i)) l
     | None => true
     end
  && match f_priority f with
     | Some l => in_names (priority_name (priority i)) l
     | None => true
     end
  && match f_assignedTo f with Some a => opt_eqb (assigned_to i) a | None => true end.

(** Modelled from the spec: the page count of the missing listing,
    ceil(total / per_page). *)
Definition ceil_div (n p : Z) : Z := (n + p - 1) / p.

(** Modelled from the spec: the items of the missing listing, the slice of
    page [page_] (1-indexed) at [per_page_] items a page. *)
Definition page_slice {A : Type} (page_ per_page_ : Z) (l : list A) : list A :=
  firstn (Z.to_nat per_page_) (skipn (Z.to_nat ((page_ - 1) * per_page_)) l).

(** Modelled from the spec: the paginated listing of the same missing module
    (section 4.2). *)
Definition paginate (page_ per_page_ : Z) (l : list item) : paginated :=
  mk_paginated (page_slice page_ per_page_ l) (Z.of_nat (List.length l))
               page_ per_page_ (ceil_div (Z.of_nat (List.length l)) per_page_).

(** The page numbers 1, ..., [n]. *)
Definition page_numbers (n : Z) : list Z := map Z.of_nat (seq 1 (Z.to_nat n)).

(** Modelled from the spec: [get_all_maintenance_items] of the missing
    module, the pagination of the rows that match the filters. *)
Definition list_items (f : filters) (page_ per_page_ : Z) (w : store)
    : result paginated * store :=
  (Return (paginate page_ per_page_ (filter (matches f) (table w))), w).

(** Modelled from the spec: the missing [MaintenanceService] with the two
    calls above. *)
Definition maintenance_service (ec : engine_config) : service store :=
  mk_service list_items (bulk_update ec).

End Service.

(** ** Query arguments ([request.args]) *)

Module Args.

(** The whitespace [int] skips around a number: the ASCII blanks 0x09 to
    0x0D and 0x20, and, of the code points from 0x80 on, those that are
    whitespace (0x85 and 0xA0).  The separators 0x1C to 0x1F, which
    [str.split] takes for whitespace, are none for [int]. *)
Definition is_int_space (c : ascii) : bool :=
  let n := ord c in
  ((9 <=? n) && (n <=? 13)) || (n =? 32) || (n =? 133) || (n =? 160).

Fixpoint all_int_space (s : string) : bool :=
  match s with
  | EmptyString => true
  | String c rest => is_int_space c && all_int_space rest
  end.

Fixpoint lstrip (s : string) : string :=
  match s with
  | EmptyString => EmptyString
  | String c rest => if is_int_space c then lstrip rest else s
  end.

(** The digits of [int(s)] after the sign: single underscores may separate
    digits, whitespace may follow.  [prev] tells whether the last character
    read was a digit. *)
Fixpoint int_digits (acc : Z) (prev : bool) (s : string) : option Z :=
  match s with
  | EmptyString => if prev then Some acc else None
  | String c rest =>
      match Validators.digit_of c with
      | Some v => int_digits (10 * acc + v) true rest
      | None =>
          if Ascii.eqb c "_" then
            (if prev then int_digits acc false rest else None)
          else if is_int_space c && prev && all_int_space rest then Some acc
          else None
      end
  end.

(** The number of digits in a string. *)
Fixpoint count_digits (s : string) : Z :=
  match s with
  | EmptyString => 0
  | String c rest =>
      match Validators.digit_of c with
      | Some _ => 1 + count_digits rest
      | None => count_digits rest
      end
  end.

(** [sys.int_max_str_digits], by default (CPython 3.11 and later): a
    decimal text of more digits is refused with ValueError. *)
Definition max_str_digits : Z := 4300.

Definition limited_digits (s : string) : option Z :=
  if max_str_digits <? count_digits s then None else int_digits 0 false s.

(** [int(s)] for a string of code points below 256; [None] is ValueError. *)
Definition py_int (s : string) : option Z :=
  match lstrip s with
  | String "-" rest => option_map Z.opp (limited_digits rest)
  | String "+" rest => limited_digits rest
  | s' => limited_digits s'
  end.

(** [args.get(key)]: the first value of the key. *)
Fixpoint get (key : string) (a : list (string * string)) : option string :=
  match a with
  | [] => None
  | (k, v) :: rest => if String.eqb k key then Some v else get key rest
  end.

(** [args.getlist(key)]. *)
Definition getlist (key : string) (a : list (string * string)) : list string :=
  map snd (filter (fun kv => String.eqb (fst kv) key) a).

(** [args.get(key, default, type=int)]: the default when the key is absent
    or the conversion raises. *)
Definition get_int (key : string) (default : Z) (a : list (string * string)) : Z :=
  match get key a with
  | None => default
  | Some v =>
      match py_int v with
      | Some n => n
      | None => default
      end
  end.

(** [args.get(key)] when it is truthy. *)
Definition get_truthy (key : string) (a : list (string * string)) : option string :=
  match get key a with
  | Some (String c rest) => Some (String c rest)
  | _ => None
  end.

Definition filters_of (a : list (string * string)) : filters :=
  mk_filters
    (get_truthy "vehicle" a)
    (match get_truthy "status" a with Some _ => Some (getlist "status" a) | None => None end)
    (match get_truthy "priority" a with Some _ => Some (getlist "priority" a) | None => None end)
    (get_truthy "assignedTo" a).

End Args.

(** [str(n)] for an integer. *)
Definition str_int (n : Z) : string := NilZero.string_of_int (Z.to_int n).

Definition error_body (msg : string) : body := Json (JDict [("error", JStr msg)]).

Definition updated_body (updated : Z) : body :=
  Json (JDict [("message", JStr ("Updated " ++ str_int updated ++ " maintenance items"));
               ("updated_count", JInt updated)]).

Definition with_world {W : Type} (st : ctx W) (w : W) : ctx W := mk_ctx (g st) w.

(** The service call the two list handlers make for a request. *)
Definition list_call {W : Type} (svc : service W) (req : request) (st : ctx W)
    : result paginated * W :=
  get_all_maintenance_items svc (Args.filters_of (args req))
    (Args.get_int "page" 1 (args req)) (Args.get_int "per_page" 10 (args req))
    (world st).

(** The outcomes of a gated view that leave the world as it was: a 401, a
    403, or an exception. *)
Definition refused {W : Type} (out : reply body * ctx W) (st : ctx W) : Prop :=
  world (snd out) = world st
  /\ ((exists msg, fst out = Aborted 401 msg)
      \/ (exists msg, fst out = Aborted 403 msg)
      \/ (exists e, fst out = Uncaught e)).

(** ** [app/routes/maintainance_route.py]: the blueprint *)

Module Routes.

Section Handlers.

Variable W : Type.
Variable jwt_decode : decoder.
Variable cfg : config.
Variable svc : service W.

(** The body of [get_maintenance_items]: the whole of it is inside [try]. *)
Definition get_maintenance_items_body (req : request) : view W body :=
  fun st =>
    let page_ := Args.get_int "page" 1 (args req) in
    let per_page_ := Args.get_int "per_page" 10 (args req) in
    let filters_ := Args.filters_of (args req) in
    match get_all_maintenance_items svc filters_ page_ per_page_ (world st) with
    | (Return result_, w) => (Response (Page result_) 200, with_world st w)
    | (Raise e, w) => (Response (error_body (exn_str e)) 500, with_world st w)
    end.

Definition get_maintenance_items (req : request) : view W body :=
  require_auth jwt_decode cfg req (get_maintenance_items_body req).

Definition update_statuses_bulk_body : view W body :=
  fun st =>
    match update_maintenance_status_bulk svc (world st) with
    | (Return updated, w) => (Response (updated_body updated) 200, with_world st w)
    | (Raise e, w) => (Response (error_body (exn_str e)) 500, with_world st w)
    end.

Definition update_statuses_bulk (req : request) : view W body :=
  require_auth jwt_decode cfg req
    (require_role cfg "fleet-admin" update_statuses_bulk_body).

End Handlers.

End Routes.

(** ** [app/routes/maintenance_api.py]: the flask-restx resources

    [marshal_with] only selects the fields of the returned dict; it is left
    out. *)

Module Api.

Section Resources.

Variable W : Type.
Variable jwt_decode : decoder.
Variable cfg : config.
Variable svc : service W.

Definition internal_error (e : exn) : string :=
  "Internal server error: " ++ exn_str e.

Definition MaintenanceList_get_body (req : request) : view W body :=
  fun st =>
    let page_ := Args.get_int "page" 1 (args req) in
    let per_page_ := Args.get_int "per_page" 10 (args req) in
    let filters_ := Args.filters_of (args req) in
    match get_all_maintenance_items svc filters_ page_ per_page_ (world st) with
    | (Return result_, w) => (Response (Page result_) 200, with_world st w)
    | (Raise e, w) => (Aborted 500 (internal_error e), with_world st w)
    end.

Definition MaintenanceList_get (req : request) : view W body :=
  require_auth jwt_decode cfg req (MaintenanceList_get_body req).

(** [BulkStatusUpdate.post] carries no decorator. *)
Definition BulkStatusUpdate_post (req : request) : view W body :=
  fun st =>
    match update_maintenance_status_bulk svc (world st) with
    | (Return updated, w) => (Response (updated_body updated) 200, with_world st w)
    | (Raise e, w) => (Aborted 500 (internal_error e), with_world st w)
    end.

End Resources.

End Api.

(** ** Date texts

    The vocabulary in which the properties of [validate_date] are stated:
    the ISO text of a date, and the texts [strptime] reads a date from. *)

Module DateText.

Import Validators.

Definition digit_char (v : Z) : ascii := ascii_of_N (Z.to_N (48 + v)).

Definition pad2 (n : Z) : string :=
  String (digit_char (n / 10)) (String (digit_char (n mod 10)) EmptyString).

Definition pad4 (n : Z) : string :=
  String (digit_char (n / 1000))
    (String (digit_char (n / 100 mod 10)) (pad2 (n mod 100))).

(** [date.isoformat()]: YYYY-MM-DD. *)
Definition isoformat (y m d : Z) : string :=
  pad4 y ++ String "-" (pad2 m ++ String "-" (pad2 d)).

Fixpoint number_from (acc : Z) (s : string) : option Z :=
  match s with
  | EmptyString => Some acc
  | String c rest =>
      match digit_of c with
      | Some v => number_from (10 * acc + v) rest
      | None => None
      end
  end.

(** The value of a non-empty string of decimal digits. *)
Definition number (s : string) : option Z :=
  match s with
  | EmptyString => None
  | String _ _ => number_from 0 s
  end.

(** The day field: one or two digits, or a space and a digit. *)
Definition day_text (ds : string) (d : Z) : Prop :=
  number ds = Some d
  \/ exists c, ds = String " " (String c EmptyString) /\ digit_of c = Some d.

(** [s] is a year of four digits, a month and a day of at most two
    characters each, separated by hyphens, that read as [dt]. *)
Definition reads_as (s : string) (dt : date) : Prop :=
  exists ys ms ds,
    s = ys ++ String "-" (ms ++ String "-" ds)
    /\ String.length ys = 4%nat /\ number ys = Some (year dt)
    /\ (String.length ms <= 2)%nat /\ number ms = Some (month dt)
    /\ (String.length ds <= 2)%nat /\ day_text ds (day dt).

(** The integers [lo], [lo + 1], ..., [n] of them. *)
Fixpoint days_from (lo : Z) (n : nat) : list Z :=
  match n with
  | O => []
  | S k => lo :: days_from (lo + 1) k
  end.

(** The first match of the day group on the two-digit text of [d] reads
    [d] and consumes the text. *)
Definition reads_day (d : Z) : bool :=
  match group_d (pad2 d) with
  | (v, EmptyString) :: _ => v =? d
  | _ => false
  end.

End DateText.

(** ** Sample inputs

    Concrete configurations, tokens and rows on which the properties below
    are evaluated. *)

Module Samples.

Definition issuer_url : string := "http://keycloak:8080/realms/fleet-management-app".

Definition cfg_issuer : config := mk_config false (Some issuer_url).
Definition cfg_auth_disabled : config := mk_config true None.

Definition admin_claims : claims :=
  [("sub", JStr "alice");
   ("realm_access", JDict [("roles", JList [JStr "fleet-admin"; JStr "driver"])])].

Definition driver_claims : claims :=
  [("sub", JStr "bob");
   ("realm_access", JDict [("roles", JList [JStr "driver"])])].

(** A decoder that knows three tokens: it reads the payload and never looks
    at a signature. *)
Definition sample_decode : decoder :=
  fun token =>
    if String.eqb token "admin.jwt" then Decoded admin_claims
    else if String.eqb token "driver.jwt" then Decoded driver_claims
    else if String.eqb token "empty.jwt" then Decoded []
    else InvalidTokenError.

Definition engine : Service.engine_config := Service.mk_engine 14 500.

(** 2024-01-01 and 2024-06-01 as day numbers (days since 1970-01-01). *)
Definition day_2024_01_01 : Z := 19723.
Definition day_2024_06_01 : Z := 19875.

Definition M100 : item :=
  mk_item "M100" "VH-1" scheduled medium day_2024_01_01 5000 5000 None 0.

Definition M101 : item :=
  mk_item "M101" "VH-2" completed low day_2024_01_01 100 90 None 0.

Definition sample_store : store := mk_store day_2024_06_01 [M100; M101].

Definition fresh (w : store) : ctx store := mk_ctx g_empty w.

(** A service layer whose every call raises [e] (the database is down). *)
Definition failing_service (e : exn) : service store :=
  mk_service (fun _ _ _ w => (Raise e, w)) (fun w => (Raise e, w)).

Definition db_error : exn :=
  mk_exn "OperationalError"
    "connection to server at 10.0.3.7, port 5433 failed: password authentication failed for user postgres".

Definition post (auth : option string) : request := mk_request "POST" auth [].

End Samples.

(** ** Exceptions inside a [try] block

    The item handlers raise and catch inside one [try]: a schema raises
    marshmallow's [ValidationError], [api.abort] raises werkzeug's
    [HTTPException], and both are subclasses of [Exception]. *)

Module Try.

Inductive raised : Type :=
| Validation (messages : json)          (* ValidationError, with [e.messages] *)
| Http (code : Z) (message : string)    (* raised by [api.abort(code, message)] *)
| Other (e : exn).                      (* any other exception *)

Inductive attempt (A : Type) : Type :=
| Done (a : A)
| Failed (r : raised).

Arguments Done {A} a.
Arguments Failed {A} r.

(** A computation on the world [W] that may raise; what it did to the
    world before raising stays done. *)
Definition M (W A : Type) : Type := W -> attempt A * W.

Definition ret {W A : Type} (a : A) : M W A := fun w => (Done a, w).

Definition raise {W A : Type} (r : raised) : M W A := fun w => (Failed r, w).

Definition lift {W A : Type} (a : attempt A) : M W A := fun w => (a, w).

Definition bind {W A B : Type} (m : M W A) (k : A -> M W B) : M W B :=
  fun w =>
    match m w with
    | (Done a, w') => k a w'
    | (Failed r, w') => (Failed r, w')
    end.

(** [api.abort(code, message)] inside a [try]. *)
Definition abort {W A : Type} (code : Z) (message : string) : M W A :=
  raise (Http code message).

(** What the libraries print: [str(e)] of the [HTTPException] that
    [flask.abort(code)] builds (it does not hold the message, which
    flask-restx stores in [e.data]), and [str(e)] of a [ValidationError]
    with the given messages. *)
Record library : Type := mk_library {
  http_str : Z -> string;
  validation_str : json -> string
}.

(** [str(e)]. *)
Definition str_raised (lib : library) (r : raised) : string :=
  match r with
  | Validation messages => validation_str lib messages
  | Http code _ => http_str lib code
  | Other e => exn_str e
  end.

End Try.

Import Try.

Notation "x <- c ;; k" := (Try.bind c (fun x => k))
  (at level 61, c at next level, right associativity).

(** ** The item handlers of both route files *)

Module Items.

(** The calls of [MaintenanceService] the item handlers make, with
    [to_dict] of the model object they return. *)
Record item_service (W : Type) : Type := mk_item_service {
  get_maintenance_item : string -> M W (option item);
  create_maintenance_item : json -> M W item;
  update_maintenance_item : string -> json -> M W (option item);
  delete_maintenance_item : string -> M W bool;
  get_maintenance_summary : M W json;
  get_vehicle_maintenance_history : string -> M W json;
  to_dict : item -> json
}.

(** [MaintenanceItemCreateSchema().load(data)] and
    [MaintenanceItemUpdateSchema().load(data, partial=...)]. *)
Record schemas : Type := mk_schemas {
  load_create : json -> attempt json;
  load_update : bool -> json -> attempt json
}.

(** A request with [request.json], which raises when the body is not
    JSON. *)
Record json_request : Type := mk_json_request {
  base : request;
  json_body : attempt json
}.

Definition message_body (msg : string) : body := Json (JDict [("message", JStr msg)]).

Definition errors_body (messages : json) : body := Json (JDict [("errors", messages)]).

Section Handlers.

Variable W : Type.
Variable lib : library.
Variable jwt_decode : decoder.
Variable cfg : config.
Variable svc : item_service W.
Variable sch : schemas.

(** [except Exception as e: return jsonify({'error': str(e)}), 500]. *)
Definition except_exception (m : M W (body * Z)) : view W body :=
  fun st =>
    match m (world st) with
    | (Done (b, code), w) => (Response b code, with_world st w)
    | (Failed r, w) =>
        (Response (error_body (str_raised lib r)) 500, with_world st w)
    end.

(** [except ValidationError as e: return jsonify({'errors': e.messages}), 400]
    before the clause for [Exception]. *)
Definition except_validation (m : M W (body * Z)) : view W body :=
  fun st =>
    match m (world st) with
    | (Done (b, code), w) => (Response b code, with_world st w)
    | (Failed (Validation messages), w) =>
        (Response (errors_body messages) 400, with_world st w)
    | (Failed r, w) =>
        (Response (error_body (str_raised lib r)) 500, with_world st w)
    end.

(** [except Exception as e: api.abort(500, f'Internal server error: {str(e)}')]. *)
Definition except_abort (m : M W (body * Z)) : view W body :=
  fun st =>
    match m (world st) with
    | (Done (b, code), w) => (Response b code, with_world st w)
    | (Failed r, w) =>
        (Aborted 500 ("Internal server error: " ++ str_raised lib r),
         with_world st w)
    end.

(** *** maintainance_route.py *)

Definition get_maintenance_item_try (item_id : string) : M W (body * Z) :=
  found <- get_maintenance_item svc item_id ;;
  match found with
  | None => ret (error_body "Maintenance item not found", 404)
  | Some i => ret (Json (to_dict svc i), 200)
  end.

Definition get_maintenance_item_view (req : request) (item_id : string) : view W body :=
  require_auth jwt_decode cfg req (except_exception (get_maintenance_item_try item_id)).

Definition create_maintenance_item_try (rq : json_request) : M W (body * Z) :=
  payload <- lift (json_body rq) ;;
  data <- lift (load_create sch payload) ;;
  i <- create_maintenance_item svc data ;;
  ret (Json (to_dict svc i), 201).

Definition create_maintenance_item_view (rq : json_request) : view W body :=
  require_auth jwt_decode cfg (base rq)
    (except_validation (create_maintenance_item_try rq)).

Definition update_maintenance_item_try (rq : json_request) (item_id : string)
    : M W (body * Z) :=
  payload <- lift (json_body rq) ;;
  data <- lift (load_update sch true payload) ;;
  found <- update_maintenance_item svc item_id data ;;
  match found with
  | None => ret (error_body "Maintenance item not found", 404)
  | Some i => ret (Json (to_dict svc i), 200)
  end.

Definition update_maintenance_item_view (rq : json_request) (item_id : string)
    : view W body :=
  require_auth jwt_decode cfg (base rq)
    (except_validation (update_maintenance_item_try rq item_id)).

Definition delete_maintenance_item_try (item_id : string) : M W (body * Z) :=
  success <- delete_maintenance_item svc item_id ;;
  if success then ret (message_body "Maintenance item deleted successfully", 200)
  else ret (error_body "Maintenance item not found", 404).

Definition delete_maintenance_item_view (req : request) (item_id : string)
    : view W body :=
  require_auth jwt_decode cfg req
    (require_role cfg "fleet-admin"
       (except_exception (delete_maintenance_item_try item_id))).

Definition get_maintenance_summary_try : M W (body * Z) :=
  summary <- get_maintenance_summary svc ;;
  ret (Json summary, 200).

Definition get_maintenance_summary_view (req : request) : view W body :=
  require_auth jwt_decode cfg req (except_exception get_maintenance_summary_try).

Definition get_vehicle_history_try (vehicle : string) : M W (body * Z) :=
  history <- get_vehicle_maintenance_history svc vehicle ;;
  ret (Json history, 200).

Definition get_vehicle_history_view (req : request) (vehicle : string) : view W body :=
  require_auth jwt_decode cfg req (except_exception (get_vehicle_history_try vehicle)).

(** *** maintenance_api.py *)

Definition MaintenanceItem_get_try (item_id : string) : M W (body * Z) :=
  found <- get_maintenance_item svc item_id ;;
  match found with
  | None => abort 404 ("Maintenance item " ++ item_id ++ " not found")
  | Some i => ret (Json (to_dict svc i), 200)
  end.

Definition MaintenanceItem_get (req : request) (item_id : string) : view W body :=
  require_auth jwt_decode cfg req (except_abort (MaintenanceItem_get_try item_id)).

Definition MaintenanceItem_delete_try (item_id : string) : M W (body * Z) :=
  success <- delete_maintenance_item svc item_id ;;
  if success then ret (message_body "Maintenance item deleted successfully", 200)
  else abort 404 ("Maintenance item " ++ item_id ++ " not found").

Definition MaintenanceItem_delete (req : request) (item_id : string) : view W body :=
  require_auth jwt_decode cfg req (except_abort (MaintenanceItem_delete_try item_id)).

(** [MaintenanceSummary.get] and [VehicleHistory.get] carry no decorator
    of [app.utils.auth]. *)
Definition MaintenanceSummary_get (req : request) : view W body :=
  except_abort get_maintenance_summary_try.

Definition VehicleHistory_get (req : request) (vehicle : string) : view W body :=
  except_abort (get_vehicle_history_try vehicle).

End Handlers.

End Items.

(** ** [config.py]: the values read from the environment *)

Module Environment.

(** [os.environ.get('AUTH_DISABLED', 'False').lower() == 'true']. *)
Definition auth_disabled_of (value : option string) : bool :=
  String.eqb (lower (match value with
                     | Some v => v
                     | None => "False"
                     end)) "true".

(** [Config], from the two variables [AUTH_DISABLED] and [OIDC_ISSUER]. *)
Definition from_env (auth_disabled oidc_issuer : option string) : config :=
  mk_config (auth_disabled_of auth_disabled) oidc_issuer.

End Environment.

(** ** Vocabulary of the properties of the handlers and decorators *)

Module Words.

(** A reply with code 200, or an abort with code 500. *)
Definition ok_or_500 (r : reply body) : Prop :=
  (exists b, r = Response b 200) \/ (exists msg, r = Aborted 500 msg).

(** [s] holds no whitespace. *)
Fixpoint no_space (s : string) : bool :=
  match s with
  | EmptyString => true
  | String c rest => negb (is_space c) && no_space rest
  end.

(** A word: not empty, no whitespace. *)
Definition is_word (s : string) : Prop := s <> EmptyString /\ no_space s = true.

(** The codes a blueprint handler may answer with. *)
Definition responds_with (codes : list Z) (r : reply body) : Prop :=
  exists b code, r = Response b code /\ In code codes.

(** A non-empty run of whitespace. *)
Definition is_gap (s : string) : Prop := s <> EmptyString /\ all_space s = true.

End Words.

Import Words.

(** ** Sample services

    An in-memory stand-in for the item calls, on which the properties of
    the item handlers are evaluated. *)

Module ItemSamples.

Import Items.

Definition has_id (item_id_ : string) (i : item) : bool :=
  String.eqb (item_id i) item_id_.

Definition sample_to_dict (i : item) : json :=
  JDict [("id", JStr (item_id i)); ("vehicle_id", JStr (vehicle_id i));
         ("status", JStr (status_name (status i)))].

Definition table_service : item_service store :=
  mk_item_service
    (fun id_ w => (Done (find (has_id id_) (table w)), w))
    (fun _ w => (Done Samples.M100, mk_store (now w) (Samples.M100 :: table w)))
    (fun id_ _ w => (Done (find (has_id id_) (table w)), w))
    (fun id_ w =>
       (Done (existsb (has_id id_) (table w)),
        mk_store (now w) (filter (fun i => negb (has_id id_ i)) (table w))))
    (fun w => (Done (JDict [("total_items", JInt (Z.of_nat (List.length (table w))))]), w))
    (fun _ w => (Done (JList []), w))
    sample_to_dict.

Definition not_found_text : string :=
  "404 Not Found: The requested URL was not found on the server. If you entered the URL manually please check your spelling and try again.".

Definition sample_library : library :=
  mk_library (fun code => if code =? 404 then not_found_text else "error")
             (fun _ => "{...}").

(** A schema that requires the key [id]. *)
Definition sample_schemas : schemas :=
  mk_schemas
    (fun data =>
       match data with
       | JDict d =>
           match dict_get "id" d with
           | Some _ => Done data
           | None =>
               Failed (Validation
                 (JDict [("id", JList [JStr "Missing data for required field."])]))
           end
       | _ => Failed (Validation (JDict [("_schema", JList [JStr "Invalid input type."])]))
       end)
    (fun _ data => Done data).

Definition get_ (auth : option string) : request := mk_request "GET" auth [].
Definition delete_ (auth : option string) : request := mk_request "DELETE" auth [].

End ItemSamples.

(** * Properties *)

Import Validators.

(** ** Mileage validation *)

Section MileageValidation.

Lemma validate_mileage_ok (current due : Z) :
  validate_mileage current due = Return true <->
  0 <= current /\ 0 <= due /\ current <= due.
Proof.
  unfold validate_mileage.
  destruct (current <? 0) eqn:Hc; destruct (due <? 0) eqn:Hd; simpl;
    try (split; [discriminate | lia]).
  destruct (due <? current) eqn:Hdc.
  - split; [discriminate | lia].
  - split; [intros _; lia | reflexivity].
Qed.

Lemma validate_mileage_negative (current due : Z) :
  current < 0 \/ due < 0 ->
  validate_mileage current due = Raise (ValueError msg_non_negative).
Proof.
  intros H. unfold validate_mileage.
  destruct (current <? 0) eqn:Hc; [reflexivity|].
  destruct (due <? 0) eqn:Hd; [reflexivity|]. lia.
Qed.

Lemma validate_mileage_due_below (current due : Z) :
  0 <= current -> 0 <= due -> due < current ->
  validate_mileage current due = Raise (ValueError msg_due_lt_current).
Proof.
  intros Hc Hd Hlt. unfold validate_mileage.
  replace (current <? 0) with false by lia.
  replace (due <? 0) with false by lia.
  replace (due <? current) with true by lia.
  reflexivity.
Qed.

End MileageValidation.

(** C6, as stated, fails: with [due_mileage = 100] and
    [current_mileage = 150] the validator raises a [ValueError], which is
    not a [ValidationError]; and with a negative current mileage its message
    does not name the field: the text holds neither "current" nor "due". *)
Lemma validate_mileage_raises_value_error :
  validate_mileage 150 100 = Raise (ValueError msg_due_lt_current)
  /\ ~ raises_class (validate_mileage 150 100) "ValidationError"
  /\ validate_mileage (-1) 5 = Raise (ValueError msg_non_negative)
  /\ is_substring "current" (lower msg_non_negative) = false
  /\ is_substring "due" (lower msg_non_negative) = false.
Proof.
  repeat split; try reflexivity.
  intros [e [He Hc]]. vm_compute in He. inversion He; subst e.
  vm_compute in Hc. discriminate.
Qed.

(** C6, amended: [validate_mileage] returns [True] exactly when
    [0 <= current], [0 <= due] and [current <= due]; it raises
    [ValueError('Mileage values must be non-negative')] when one of the two
    is negative, and otherwise
    [ValueError('Due mileage must be greater than or equal to current mileage')]
    when [due < current]; in particular it raises the latter for due 100 and
    current 150. *)
Theorem validate_mileage_spec :
  (forall current due : Z,
      (validate_mileage current due = Return true <->
       0 <= current /\ 0 <= due /\ current <= due)
      /\ (current < 0 \/ due < 0 ->
          validate_mileage current due = Raise (ValueError msg_non_negative))
      /\ (0 <= current -> 0 <= due -> due < current ->
          validate_mileage current due = Raise (ValueError msg_due_lt_current)))
  /\ validate_mileage 150 100 = Raise (ValueError msg_due_lt_current).
Proof.
  split; [|reflexivity].
  intros current due. split; [apply validate_mileage_ok|].
  split; [apply validate_mileage_negative | apply validate_mileage_due_below].
Qed.

(** ** Date validation *)

Import DateText.

Section DateValidation.

Local Opaque Z.mul Z.add Z.div Z.modulo.

Lemma digit_of_digit_char (v : Z) :
  0 <= v <= 9 -> digit_of (digit_char v) = Some v.
Proof.
  intros H.
  assert (v = 0 \/ v = 1 \/ v = 2 \/ v = 3 \/ v = 4 \/ v = 5 \/ v = 6
          \/ v = 7 \/ v = 8 \/ v = 9) as Hv by lia.
  repeat (destruct Hv as [-> | Hv]; [reflexivity|]). subst v. reflexivity.
Qed.

Lemma digit_of_range (c : ascii) (v : Z) : digit_of c = Some v -> 0 <= v <= 9.
Proof.
  unfold digit_of.
  destruct ((48 <=? ord c) && (ord c <=? 57)) eqn:Hb; [|discriminate].
  intros H; inversion H; lia.
Qed.

Lemma digit_in_digit_of (lo hi : Z) (c : ascii) (v : Z) :
  digit_in lo hi c = Some v -> digit_of c = Some v /\ lo <= v <= hi.
Proof.
  unfold digit_in. destruct (digit_of c) as [w|]; [|discriminate].
  destruct ((lo <=? w) && (w <=? hi)) eqn:Hb; [|discriminate].
  intros H; inversion H; subst. split; [reflexivity | lia].
Qed.

(** *** What a match of each group has read *)

Lemma group_Y_sound (s : string) (v : Z) (r : string) :
  In (v, r) (group_Y s) ->
  exists ys, s = ys ++ r /\ String.length ys = 4%nat /\ number ys = Some v.
Proof.
  unfold group_Y.
  destruct s as [|a [|b [|c [|d rest]]]]; simpl; try tauto.
  destruct (digit_of a) as [va|] eqn:Ha; [|simpl; tauto].
  destruct (digit_of b) as [vb|] eqn:Hb; [|simpl; tauto].
  destruct (digit_of c) as [vc|] eqn:Hc; [|simpl; tauto].
  destruct (digit_of d) as [vd|] eqn:Hd; [|simpl; tauto].
  intros [H | []]. inversion H; subst.
  exists (String a (String b (String c (String d EmptyString)))).
  split; [reflexivity|]. split; [reflexivity|].
  simpl. rewrite Ha, Hb, Hc, Hd. f_equal. lia.
Qed.

Lemma two_digits_sound (lo1 hi1 lo2 hi2 : Z) (s : string) (v : Z) (r : string) :
  In (v, r) (two_digits lo1 hi1 lo2 hi2 s) ->
  exists t, s = t ++ r /\ String.length t = 2%nat /\ number t = Some v.
Proof.
  unfold two_digits. destruct s as [|a [|b rest]]; simpl; try tauto.
  destruct (digit_in lo1 hi1 a) as [va|] eqn:Ha; [|simpl; tauto].
  destruct (digit_in lo2 hi2 b) as [vb|] eqn:Hb; [|simpl; tauto].
  apply digit_in_digit_of in Ha, Hb. destruct Ha as [Ha _], Hb as [Hb _].
  intros [H | []]. inversion H; subst.
  exists (String a (String b EmptyString)).
  split; [reflexivity|]. split; [reflexivity|].
  simpl. rewrite Ha, Hb. f_equal.
Qed.

Lemma one_digit_sound (lo hi : Z) (s : string) (v : Z) (r : string) :
  In (v, r) (one_digit lo hi s) ->
  exists c, s = String c r /\ digit_of c = Some v.
Proof.
  unfold one_digit. destruct s as [|a rest]; simpl; try tauto.
  destruct (digit_in lo hi a) as [va|] eqn:Ha; [|simpl; tauto].
  apply digit_in_digit_of in Ha. destruct Ha as [Ha _].
  intros [H | []]. inversion H; subst. exists a. auto.
Qed.

Lemma number_one_digit (c : ascii) (v : Z) :
  digit_of c = Some v -> number (String c EmptyString) = Some v.
Proof. intros H. simpl. rewrite H. reflexivity. Qed.

Lemma group_m_sound (s : string) (v : Z) (r : string) :
  In (v, r) (group_m s) ->
  exists ms, s = ms ++ r /\ (String.length ms <= 2)%nat /\ number ms = Some v.
Proof.
  unfold group_m. rewrite !in_app_iff. intros [H | [H | H]].
  - apply two_digits_sound in H. destruct H as [t [-> [Hl Hn]]].
    exists t. rewrite Hl. auto.
  - apply two_digits_sound in H. destruct H as [t [-> [Hl Hn]]].
    exists t. rewrite Hl. auto.
  - apply one_digit_sound in H. destruct H as [c [-> Hc]].
    exists (String c EmptyString). split; [reflexivity|].
    split; [simpl; lia | apply number_one_digit, Hc].
Qed.

Lemma group_d_sound (s : string) (v : Z) (r : string) :
  In (v, r) (group_d s) ->
  exists ds, s = ds ++ r /\ (String.length ds <= 2)%nat /\ day_text ds v.
Proof.
  unfold group_d. rewrite !in_app_iff. intros [H | [H | [H | [H | H]]]].
  1-3: apply two_digits_sound in H; destruct H as [t [-> [Hl Hn]]];
       exists t; rewrite Hl; unfold day_text; auto.
  - apply one_digit_sound in H. destruct H as [c [-> Hc]].
    exists (String c EmptyString). split; [reflexivity|].
    split; [simpl; lia | left; apply number_one_digit, Hc].
  - unfold space_digit in H. destruct s as [|a rest]; [contradiction|].
    destruct (Ascii.ascii_dec a " ") as [-> | Hne].
    + apply one_digit_sound in H. destruct H as [c [-> Hc]].
      exists (String " " (String c EmptyString)). split; [reflexivity|].
      split; [simpl; lia | right; exists c; auto].
    + exfalso. destruct a as [[] [] [] [] [] [] [] []];
        try contradiction; apply Hne; reflexivity.
Qed.

Lemma literal_sound (c : ascii) (s r : string) :
  In r (literal c s) -> s = String c r.
Proof.
  unfold literal. destruct s as [|a rest]; [contradiction|].
  destruct (Ascii.eqb a c) eqn:E; [|contradiction].
  apply Ascii.eqb_eq in E. intros [H | []]. subst. reflexivity.
Qed.

Lemma append_assoc (a b c : string) : (a ++ b) ++ c = a ++ (b ++ c).
Proof. induction a; simpl; [reflexivity | rewrite IHa; reflexivity]. Qed.

Lemma append_empty_r (a : string) : a ++ EmptyString = a.
Proof. induction a; simpl; [reflexivity | rewrite IHa; reflexivity]. Qed.

Lemma regex_matches_sound (s : string) (y m d : Z) (r : string) :
  In (y, m, d, r) (regex_matches s) ->
  exists ys ms ds,
    s = ys ++ String "-" (ms ++ String "-" (ds ++ r))
    /\ String.length ys = 4%nat /\ number ys = Some y
    /\ (String.length ms <= 2)%nat /\ number ms = Some m
    /\ (String.length ds <= 2)%nat /\ day_text ds d.
Proof.
  unfold regex_matches. intros H.
  apply in_flat_map in H. destruct H as [[y' r1] [HY H]].
  apply in_flat_map in H. destruct H as [r2 [H1 H]].
  apply in_flat_map in H. destruct H as [[m' r3] [HM H]].
  apply in_flat_map in H. destruct H as [r4 [H2 H]].
  apply in_map_iff in H. destruct H as [[d' r5] [Heq HD]].
  inversion Heq; subst; clear Heq.
  apply group_Y_sound in HY. destruct HY as [ys [-> [Hly Hny]]].
  apply literal_sound in H1. subst r1.
  apply group_m_sound in HM. destruct HM as [ms [-> [Hlm Hnm]]].
  apply literal_sound in H2. subst r3.
  apply group_d_sound in HD. destruct HD as [ds [-> [Hld Hnd]]].
  exists ys, ms, ds. repeat split; auto.
Qed.

(** *** What [strptime] and [validate_date] return *)

Lemma strptime_ymd_sound (s : string) (dt : date) :
  strptime_ymd s = Return dt ->
  valid_date (year dt) (month dt) (day dt) = true /\ reads_as s dt.
Proof.
  unfold strptime_ymd.
  destruct (regex_matches s) as [|[[[y m] d] rest] tl] eqn:E; [discriminate|].
  destruct rest; [|discriminate].
  destruct (valid_date y m d) eqn:V; [|discriminate].
  intros H; inversion H; subst; simpl. split; [assumption|].
  assert (In (y, m, d, EmptyString) (regex_matches s)) as Hin
      by (rewrite E; left; reflexivity).
  apply regex_matches_sound in Hin.
  destruct Hin as [ys [ms [ds [Hs Hrest]]]].
  rewrite append_empty_r in Hs.
  exists ys, ms, ds. split; [exact Hs | exact Hrest].
Qed.

Lemma strptime_ymd_raises (s : string) (e : exn) :
  strptime_ymd s = Raise e -> exn_class e = "ValueError".
Proof.
  unfold strptime_ymd.
  destruct (regex_matches s) as [|[[[y m] d] rest] tl]; [|destruct rest];
    try destruct (valid_date y m d);
    intros H; inversion H; reflexivity.
Qed.

Lemma validate_date_strptime (s : string) :
  validate_date s =
  match strptime_ymd s with
  | Return d => Return d
  | Raise _ => Raise (ValueError msg_invalid_date)
  end.
Proof.
  unfold validate_date. destruct (strptime_ymd s) as [d|e] eqn:E; [reflexivity|].
  apply strptime_ymd_raises in E. rewrite E. reflexivity.
Qed.

(** *** The ISO text of a valid date is read back *)

Lemma group_Y_pad4 (y : Z) (rest : string) :
  0 <= y <= 9999 -> group_Y (pad4 y ++ rest) = [(y, rest)].
Proof.
  intros H. unfold pad4, pad2, group_Y. simpl.
  assert (0 <= y / 1000 <= 9) as H3
      by (Z.to_euclidean_division_equations; lia).
  assert (0 <= y / 100 mod 10 <= 9) as H2
      by (Z.to_euclidean_division_equations; lia).
  assert (0 <= y mod 100 / 10 <= 9) as H1
      by (Z.to_euclidean_division_equations; lia).
  assert (0 <= y mod 100 mod 10 <= 9) as H0
      by (Z.to_euclidean_division_equations; lia).
  rewrite !digit_of_digit_char by assumption.
  do 2 f_equal. Z.to_euclidean_division_equations. lia.
Qed.

Lemma group_m_pad2 (m : Z) (rest : string) :
  1 <= m <= 12 ->
  exists tl, group_m (pad2 m ++ String "-" rest) = (m, String "-" rest) :: tl.
Proof.
  intros H.
  assert (m = 1 \/ m = 2 \/ m = 3 \/ m = 4 \/ m = 5 \/ m = 6 \/ m = 7
          \/ m = 8 \/ m = 9 \/ m = 10 \/ m = 11 \/ m = 12) as Hm by lia.
  repeat (destruct Hm as [-> | Hm]; [eexists; reflexivity|]).
  subst m. eexists; reflexivity.
Qed.

Lemma days_from_In (n : nat) (lo d : Z) :
  lo <= d < lo + Z.of_nat n -> In d (days_from lo n).
Proof.
  revert lo. induction n as [|k IH]; intros lo H; [lia|].
  simpl. destruct (Z.eq_dec lo d) as [E | E]; [left; exact E|].
  right. apply IH. lia.
Qed.

Lemma group_d_pad2 (d : Z) :
  1 <= d <= 31 -> exists tl, group_d (pad2 d) = (d, EmptyString) :: tl.
Proof.
  intros H.
  assert (forallb reads_day (days_from 1 31) = true) as Hall by (vm_compute; reflexivity).
  rewrite forallb_forall in Hall.
  specialize (Hall d (@days_from_In 31 1 d ltac:(lia))).
  unfold reads_day in Hall.
  destruct (group_d (pad2 d)) as [|[v [|c r]] tl]; try discriminate.
  apply Z.eqb_eq in Hall. subst v. eexists; reflexivity.
Qed.

Lemma valid_date_bounds (y m d : Z) :
  valid_date y m d = true -> 1 <= y <= 9999 /\ 1 <= m <= 12 /\ 1 <= d <= 31.
Proof.
  unfold valid_date, days_in_month. intros H.
  repeat (apply andb_prop in H; destruct H as [H ?]).
  destruct (m =? 2); [destruct (is_leap y)|];
    try destruct ((m =? 4) || (m =? 6) || (m =? 9) || (m =? 11)); lia.
Qed.

Lemma validate_date_isoformat (y m d : Z) :
  valid_date y m d = true ->
  validate_date (isoformat y m d) = Return (mk_date y m d).
Proof.
  intros V. destruct (@valid_date_bounds y m d V) as [Hy [Hm Hd]].
  rewrite validate_date_strptime. unfold strptime_ymd, regex_matches, isoformat.
  rewrite group_Y_pad4 by lia.
  destruct (@group_m_pad2 m (pad2 d) Hm) as [tlm Em].
  destruct (@group_d_pad2 d Hd) as [tld Ed].
  cbn [flat_map literal Ascii.eqb Bool.eqb app].
  rewrite Em. cbn [flat_map literal Ascii.eqb Bool.eqb app].
  rewrite Ed. cbn [map app]. rewrite V. reflexivity.
Qed.

End DateValidation.

(** C7, as stated, fails: on "2024-13-40" the validator raises a
    [ValueError], which is not a [ValidationError]. *)
Lemma validate_date_raises_value_error :
  validate_date "2024-13-40" = Raise (ValueError msg_invalid_date)
  /\ ~ raises_class (validate_date "2024-13-40") "ValidationError".
Proof.
  split; [reflexivity|].
  intros [e [He Hc]]. vm_compute in He. inversion He; subst e.
  vm_compute in Hc. discriminate.
Qed.

(** [strptime] is lenient: a month and a day of one digit are read too. *)
Example validate_date_one_digit_fields :
  validate_date "2024-1-5" = Return (mk_date 2024 1 5).
Proof. reflexivity. Qed.

(** C7, amended: [validate_date] returns the date for the ISO text
    YYYY-MM-DD of every calendar date (years 1 to 9999); whenever it
    returns, the date is a calendar date and the string is a four-digit
    year, a month and a day of at most two characters, hyphen-separated,
    that read as this date; on every other string it raises
    [ValueError('Invalid date format. Expected YYYY-MM-DD')]; in particular
    it raises it on "2024-13-40". *)
Theorem validate_date_spec :
  (forall y m d : Z,
      valid_date y m d = true ->
      validate_date (isoformat y m d) = Return (mk_date y m d))
  /\ (forall (s : string) (dt : date),
         validate_date s = Return dt ->
         valid_date (year dt) (month dt) (day dt) = true /\ reads_as s dt)
  /\ (forall s : string,
         (exists dt, validate_date s = Return dt)
         \/ validate_date s = Raise (ValueError msg_invalid_date))
  /\ validate_date "2024-13-40" = Raise (ValueError msg_invalid_date).
Proof.
  split; [exact validate_date_isoformat|].
  split.
  - intros s dt H. rewrite validate_date_strptime in H.
    destruct (strptime_ymd s) as [d0|e] eqn:E; [|discriminate].
    inversion H; subst. apply strptime_ymd_sound, E.
  - split; [|reflexivity].
    intros s. rewrite validate_date_strptime.
    destruct (strptime_ymd s) as [d0|e]; [left; eexists; reflexivity | right; reflexivity].
Qed.

(** ** Authentication *)

Section Authentication.

Variables W B : Type.
Variable jwt_decode : decoder.
Variable cfg : config.

Lemma require_auth_options_any (req : request) (f : view W B) (st : ctx W) :
  method req = "OPTIONS" -> require_auth jwt_decode cfg req f st = f st.
Proof. intros H. unfold require_auth. rewrite H. reflexivity. Qed.

Lemma require_auth_disabled (req : request) (f : view W B) (st : ctx W) :
  AUTH_DISABLED cfg = true -> require_auth jwt_decode cfg req f st = f st.
Proof.
  intros H. unfold require_auth. rewrite H.
  destruct (String.eqb (method req) "OPTIONS"); reflexivity.
Qed.

Lemma require_auth_bearer (req : request) (f : view W B) (st : ctx W)
    (h token : string) :
  String.eqb (method req) "OPTIONS" = false ->
  AUTH_DISABLED cfg = false ->
  authorization req = Some h ->
  well_formed_bearer h token ->
  require_auth jwt_decode cfg req f st =
  if truthy (OIDC_ISSUER cfg) then
    match jwt_decode token with
    | Decoded payload => f (set_user payload st)
    | ExpiredSignatureError => (Aborted 401 "Token is expired", st)
    | InvalidTokenError => (Aborted 401 "Invalid token", st)
    | OtherException => (Aborted 401 "Token invalid", st)
    end
  else f st.
Proof.
  intros Hm Hd Hh [b [Hs Hb]]. unfold require_auth.
  rewrite Hm, Hd, Hh.
  destruct h as [|c h']; [discriminate Hs|].
  rewrite Hs, Hb. reflexivity.
Qed.

(** Every way [require_auth] ends when authentication is enabled and the
    method is not OPTIONS. *)
Lemma require_auth_cases (req : request) (f : view W B) (st : ctx W) :
  String.eqb (method req) "OPTIONS" = false ->
  AUTH_DISABLED cfg = false ->
  (exists h token,
      authorization req = Some h /\ well_formed_bearer h token)
  \/ (exists msg, require_auth jwt_decode cfg req f st = (Aborted 401 msg, st))
  \/ (exists h, authorization req = Some h /\ h <> EmptyString /\ split h = []
        /\ require_auth jwt_decode cfg req f st
           = (Uncaught (IndexError "list index out of range"), st)).
Proof.
  intros Hm Hd. unfold require_auth. rewrite Hm, Hd.
  destruct (authorization req) as [h|] eqn:Hh; [|right; left; eauto].
  destruct h as [|c h']; [right; left; eauto|].
  destruct (split (String c h')) as [|p0 rest] eqn:Hs.
  - right; right. exists (String c h'). repeat split; congruence.
  - destruct (String.eqb (lower p0) "bearer") eqn:Hb; simpl;
      [|right; left; eauto].
    destruct rest as [|token [|x rest']]; [right; left; eauto | | right; left; eauto].
    left. exists (String c h'), token. split; [reflexivity|].
    exists p0. split; [exact Hs | apply String.eqb_eq, Hb].
Qed.

End Authentication.

(** C9: on an OPTIONS request [require_auth] calls the wrapped view on the
    unchanged state and returns what it returns, whatever the
    configuration (authentication enabled or not, issuer set or not), the
    Authorization header and the token decoder are. *)
Theorem require_auth_options_bypass :
  forall (W B : Type) (jwt_decode : decoder) (cfg : config)
         (auth : option string) (query : list (string * string))
         (f : view W B) (st : ctx W),
    require_auth jwt_decode cfg (mk_request "OPTIONS" auth query) f st = f st.
Proof. intros. apply require_auth_options_any. reflexivity. Qed.

Section RoleCheck.

Variables W B : Type.
Variable cfg : config.

Lemma require_role_no_user (role : string) (f : view W B) (st : ctx W) :
  AUTH_DISABLED cfg = false -> user (g st) = None ->
  require_role cfg role f st = (Aborted 401 "User not authenticated", st).
Proof. intros Hd Hu. unfold require_role. rewrite Hd, Hu. reflexivity. Qed.

Lemma require_role_user (role : string) (f : view W B) (st : ctx W) (p : claims) :
  AUTH_DISABLED cfg = false -> p <> [] ->
  require_role cfg role f (set_user p st) =
  match has_role role p with
  | Raise e => (Uncaught e, set_user p st)
  | Return false =>
      (Aborted 403 ("Insufficient permissions: " ++ role ++ " role required"),
       set_user p st)
  | Return true => f (set_user p st)
  end.
Proof.
  intros Hd Hp. unfold require_role. rewrite Hd. simpl.
  destruct p as [|kv p']; [contradiction|]. reflexivity.
Qed.

End RoleCheck.

(** A header of whitespace only splits into no part, and [parts[0]]
    raises outside every [try]: the request ends in an IndexError. *)
Theorem require_auth_blank_header :
  forall (W B : Type) (jwt_decode : decoder) (cfg : config) (req : request)
         (h : string) (f : view W B) (st : ctx W),
    String.eqb (method req) "OPTIONS" = false ->
    AUTH_DISABLED cfg = false ->
    authorization req = Some h ->
    h <> EmptyString ->
    all_space h = true ->
    require_auth jwt_decode cfg req f st
    = (Uncaught (IndexError "list index out of range"), st).
Proof.
  intros W B jwt_decode cfg req h f st Hm Hd Hh Hne Hsp.
  assert (split h = []) as Hs.
  { unfold split. clear Hh Hne. induction h as [|c h' IH]; [reflexivity|].
    simpl in *. apply andb_prop in Hsp. destruct Hsp as [Hc Hrest].
    rewrite Hc. apply IH, Hrest. }
  unfold require_auth. rewrite Hm, Hd, Hh.
  destruct h as [|c h']; [contradiction|]. rewrite Hs. reflexivity.
Qed.

Lemma require_auth_blank_header_witness :
  require_auth Samples.sample_decode Samples.cfg_issuer
    (Samples.post (Some (String (ascii_of_nat 160) EmptyString)))
    (fun st : ctx store => (Response (user (g st)) 200, st))
    (Samples.fresh Samples.sample_store)
  = (Uncaught (IndexError "list index out of range"),
     Samples.fresh Samples.sample_store).
Proof.
  apply (@require_auth_blank_header store (option claims) Samples.sample_decode
           Samples.cfg_issuer
           (Samples.post (Some (String (ascii_of_nat 160) EmptyString)))
           (String (ascii_of_nat 160) EmptyString)).
  - reflexivity.
  - reflexivity.
  - reflexivity.
  - discriminate.
  - reflexivity.
Defined.

(** With [AUTH_DISABLED] set both decorators call the view on the unchanged
    state, whatever the request carries. *)
Theorem auth_disabled_bypass :
  forall (W B : Type) (jwt_decode : decoder) (cfg : config) (req : request)
         (role : string) (f : view W B) (st : ctx W),
    AUTH_DISABLED cfg = true ->
    require_auth jwt_decode cfg req f st = f st
    /\ require_role cfg role f st = f st
    /\ require_auth jwt_decode cfg req (require_role cfg role f) st = f st.
Proof.
  intros W B jwt_decode cfg req role f st Hd.
  assert (require_role cfg role f st = f st) as Hr
      by (unfold require_role; rewrite Hd; reflexivity).
  split; [apply require_auth_disabled, Hd|]. split; [exact Hr|].
  rewrite require_auth_disabled by exact Hd. exact Hr.
Qed.

Lemma auth_disabled_bypass_witness :
  require_auth Samples.sample_decode Samples.cfg_auth_disabled (Samples.post None)
    (fun st : ctx store => (Response (user (g st)) 200, st))
    (Samples.fresh Samples.sample_store)
  = (Response None 200, Samples.fresh Samples.sample_store).
Proof.
  exact (proj1 (@auth_disabled_bypass store (option claims) Samples.sample_decode
                  Samples.cfg_auth_disabled (Samples.post None) "fleet-admin"
                  (fun st : ctx store => (Response (user (g st)) 200, st))
                  (Samples.fresh Samples.sample_store) eq_refl)).
Defined.

(** ** Signature verification (C4)

    With authentication enabled and an issuer configured, a well-formed
    Bearer header whose token decodes is accepted and its payload becomes
    [g.user], whatever a check [verifies] of the token's signature against
    the issuer's keys would answer: the decorator decodes with
    [verify_signature = False] and never fetches the keys. *)
Theorem require_auth_accepts_unverified_signature :
  forall (W B : Type) (verifies : option json -> string -> bool)
         (jwks : option json) (jwt_decode : decoder) (cfg : config)
         (req : request) (h token : string) (p : claims)
         (f : view W B) (st : ctx W),
    String.eqb (method req) "OPTIONS" = false ->
    AUTH_DISABLED cfg = false ->
    truthy (OIDC_ISSUER cfg) = true ->
    authorization req = Some h ->
    well_formed_bearer h token ->
    jwt_decode token = Decoded p ->
    verifies jwks token = false ->
    require_auth jwt_decode cfg req f st = f (set_user p st).
Proof.
  intros W B verifies jwks jwt_decode cfg req h token p f st
         Hm Hd Hi Hh Hw Hp _.
  rewrite (require_auth_bearer jwt_decode cfg req f st Hm Hd Hh Hw).
  rewrite Hi, Hp. reflexivity.
Qed.

(** The theorem at a token no key verifies: the view runs with the forged
    payload as [g.user]. *)
Lemma require_auth_accepts_unverified_signature_witness :
  require_auth Samples.sample_decode Samples.cfg_issuer
    (Samples.post (Some "Bearer admin.jwt"))
    (fun st : ctx store => (Response (user (g st)) 200, st))
    (Samples.fresh Samples.sample_store)
  = (Response (Some Samples.admin_claims) 200,
     set_user Samples.admin_claims (Samples.fresh Samples.sample_store)).
Proof.
  exact (@require_auth_accepts_unverified_signature store (option claims)
           (fun _ _ => false) None Samples.sample_decode Samples.cfg_issuer
           (Samples.post (Some "Bearer admin.jwt")) "Bearer admin.jwt" "admin.jwt"
           Samples.admin_claims
           (fun st : ctx store => (Response (user (g st)) 200, st))
           (Samples.fresh Samples.sample_store)
           eq_refl eq_refl eq_refl eq_refl
           (ex_intro _ "Bearer" (conj eq_refl eq_refl))
           eq_refl eq_refl).
Defined.

(** ** No issuer configured (C10) *)




(** ** The role gate of the bulk endpoint (C3) *)

Section BulkGate.

Variable W : Type.
Variable jwt_decode : decoder.
Variable cfg : config.
Variable svc : service W.

Lemma refused_401 (msg : string) (st' st : ctx W) :
  world st' = world st -> refused (Aborted 401 msg, st') st.
Proof. intros H. split; [exact H | left; exists msg; reflexivity]. Qed.

Lemma refused_403 (msg : string) (st' st : ctx W) :
  world st' = world st -> refused (Aborted 403 msg, st') st.
Proof. intros H. split; [exact H | right; left; exists msg; reflexivity]. Qed.

Lemma refused_uncaught (e : exn) (st' st : ctx W) :
  world st' = world st -> refused (Uncaught e, st') st.
Proof. intros H. split; [exact H | right; right; exists e; reflexivity]. Qed.

Lemma require_role_refuses_or_runs (f : view W body) (st : ctx W) (p : claims) :
  AUTH_DISABLED cfg = false ->
  (p <> [] /\ has_role "fleet-admin" p = Return true
   /\ require_role cfg "fleet-admin" f (set_user p st) = f (set_user p st))
  \/ refused (require_role cfg "fleet-admin" f (set_user p st)) st.
Proof.
  intros Hd. destruct p as [|kv p'].
  - right. unfold require_role. rewrite Hd. simpl.
    apply refused_401. reflexivity.
  - assert (kv :: p' <> []) as Hp by discriminate.
    rewrite (require_role_user cfg "fleet-admin" f st Hd Hp).
    destruct (has_role "fleet-admin" (kv :: p')) as [[|]|e] eqn:Hr.
    + left. auto.
    + right. apply refused_403. reflexivity.
    + right. apply refused_uncaught. reflexivity.
Qed.

Lemma update_statuses_bulk_gate (req : request) (st : ctx W) :
  AUTH_DISABLED cfg = false -> user (g st) = None ->
  (exists p, p <> [] /\ has_role "fleet-admin" p = Return true
             /\ Routes.update_statuses_bulk jwt_decode cfg svc req st
                = Routes.update_statuses_bulk_body svc (set_user p st))
  \/ refused (Routes.update_statuses_bulk jwt_decode cfg svc req st) st.
Proof.
  intros Hd Hu. unfold Routes.update_statuses_bulk.
  assert (refused (require_role cfg "fleet-admin"
                     (Routes.update_statuses_bulk_body svc) st) st) as Hno.
  { rewrite require_role_no_user by assumption.
    apply refused_401. reflexivity. }
  destruct (String.eqb (method req) "OPTIONS") eqn:Hm.
  { right. rewrite require_auth_options_any by (apply String.eqb_eq, Hm).
    exact Hno. }
  destruct (require_auth_cases jwt_decode cfg req
              (require_role cfg "fleet-admin" (Routes.update_statuses_bulk_body svc))
              st Hm Hd)
    as [[h [token [Hh Hw]]] | [[msg Hmsg] | [h [_ [_ [_ Hidx]]]]]].
  - rewrite (require_auth_bearer jwt_decode cfg req _ st Hm Hd Hh Hw).
    destruct (truthy (OIDC_ISSUER cfg)); [|right; exact Hno].
    destruct (jwt_decode token) as [p| | |];
      try (right; apply refused_401; reflexivity).
    destruct (require_role_refuses_or_runs (Routes.update_statuses_bulk_body svc) st p Hd)
      as [[Hp [Hr Heq]] | Href].
    + left. exists p. rewrite Heq. auto.
    + right. exact Href.
  - right. rewrite Hmsg. apply refused_401. reflexivity.
  - right. rewrite Hidx. apply refused_uncaught. reflexivity.
Qed.

Lemma update_statuses_bulk_decoded (req : request) (st : ctx W)
    (h token : string) (p : claims) :
  AUTH_DISABLED cfg = false ->
  String.eqb (method req) "OPTIONS" = false ->
  authorization req = Some h -> well_formed_bearer h token ->
  truthy (OIDC_ISSUER cfg) = true ->
  jwt_decode token = Decoded p -> p <> [] ->
  Routes.update_statuses_bulk jwt_decode cfg svc req st =
  match has_role "fleet-admin" p with
  | Raise e => (Uncaught e, set_user p st)
  | Return false =>
      (Aborted 403 "Insufficient permissions: fleet-admin role required",
       set_user p st)
  | Return true => Routes.update_statuses_bulk_body svc (set_user p st)
  end.
Proof.
  intros Hd Hm Hh Hw Hi Hp Hne. unfold Routes.update_statuses_bulk.
  rewrite (require_auth_bearer jwt_decode cfg req _ st Hm Hd Hh Hw).
  rewrite Hi, Hp. rewrite (require_role_user cfg "fleet-admin" _ st Hd Hne).
  reflexivity.
Qed.

End BulkGate.

(** The blueprint route at two inputs its guards single out: with
    authentication disabled a request without any token reaches the service
    call and the recomputation is performed; and with authentication
    enabled a token whose payload is the empty object is answered with 401
    by the guard [not g.user], not with 403. *)
Lemma update_statuses_bulk_without_role :
  Routes.update_statuses_bulk Samples.sample_decode Samples.cfg_auth_disabled
    (Service.maintenance_service Samples.engine)
    (Samples.post None) (Samples.fresh Samples.sample_store)
  = (Response (updated_body 1) 200,
     Samples.fresh
       (mk_store Samples.day_2024_06_01
          [set_status overdue Samples.day_2024_06_01 Samples.M100; Samples.M101]))
  /\ Routes.update_statuses_bulk Samples.sample_decode Samples.cfg_issuer
       (Service.maintenance_service Samples.engine)
       (Samples.post (Some "Bearer empty.jwt")) (Samples.fresh Samples.sample_store)
     = (Aborted 401 "User not authenticated",
        set_user [] (Samples.fresh Samples.sample_store)).
Proof. split; reflexivity. Qed.

(** The gate of the blueprint route [update_statuses_bulk]: with
    authentication enabled, the service call is reached only on a state
    whose [g.user] is a non-empty payload for which the membership test
    [role in roles] of fleet-admin in [realm_access.roles] is true; every
    other request is answered 401 or 403, or leaves with an exception, and
    the world is unchanged.  A well-formed Bearer header whose token
    decodes to a non-empty payload is answered 403 when the test is false,
    and reaches the service call when it is true. *)
Theorem update_statuses_bulk_role_gate :
  forall (W : Type) (jwt_decode : decoder) (cfg : config) (svc : service W)
         (req : request) (st : ctx W),
    AUTH_DISABLED cfg = false ->
    user (g st) = None ->
    ((exists p, p <> [] /\ has_role "fleet-admin" p = Return true
                /\ Routes.update_statuses_bulk jwt_decode cfg svc req st
                   = Routes.update_statuses_bulk_body svc (set_user p st))
     \/ refused (Routes.update_statuses_bulk jwt_decode cfg svc req st) st)
    /\ (forall (h token : string) (p : claims),
           String.eqb (method req) "OPTIONS" = false ->
           authorization req = Some h -> well_formed_bearer h token ->
           truthy (OIDC_ISSUER cfg) = true ->
           jwt_decode token = Decoded p -> p <> [] ->
           (has_role "fleet-admin" p = Return false ->
            Routes.update_statuses_bulk jwt_decode cfg svc req st
            = (Aborted 403 "Insufficient permissions: fleet-admin role required",
               set_user p st))
           /\ (has_role "fleet-admin" p = Return true ->
               Routes.update_statuses_bulk jwt_decode cfg svc req st
               = Routes.update_statuses_bulk_body svc (set_user p st))).
Proof.
  intros W jwt_decode cfg svc req st Hd Hu. split.
  - apply update_statuses_bulk_gate; assumption.
  - intros h token p Hm Hh Hw Hi Hp Hne.
    rewrite (update_statuses_bulk_decoded jwt_decode cfg svc req st Hd Hm Hh Hw Hi Hp Hne).
    split; intros ->; reflexivity.
Qed.

(** The theorem at a driver's token: 403, and the table is untouched. *)
Lemma update_statuses_bulk_role_gate_witness :
  Routes.update_statuses_bulk Samples.sample_decode Samples.cfg_issuer
    (Service.maintenance_service Samples.engine)
    (Samples.post (Some "Bearer driver.jwt")) (Samples.fresh Samples.sample_store)
  = (Aborted 403 "Insufficient permissions: fleet-admin role required",
     set_user Samples.driver_claims (Samples.fresh Samples.sample_store)).
Proof.
  refine (proj1 (proj2 (@update_statuses_bulk_role_gate store Samples.sample_decode
            Samples.cfg_issuer (Service.maintenance_service Samples.engine)
            (Samples.post (Some "Bearer driver.jwt"))
            (Samples.fresh Samples.sample_store) eq_refl eq_refl)
          "Bearer driver.jwt" "driver.jwt" Samples.driver_claims
          eq_refl eq_refl (ex_intro _ "Bearer" (conj eq_refl eq_refl))
          eq_refl eq_refl _) eq_refl).
  discriminate.
Defined.

(** The flask-restx resource for the same path carries no decorator: for
    every request, whatever the configuration, the service call is made on
    the world as it is, [flask.g] is untouched, and a count returned by the
    service is answered with 200. *)
Theorem BulkStatusUpdate_post_ungated :
  forall (W : Type) (svc : service W) (req : request) (st : ctx W),
    world (snd (Api.BulkStatusUpdate_post svc req st))
    = snd (update_maintenance_status_bulk svc (world st))
    /\ g (snd (Api.BulkStatusUpdate_post svc req st)) = g st
    /\ (forall n : Z,
           fst (update_maintenance_status_bulk svc (world st)) = Return n ->
           fst (Api.BulkStatusUpdate_post svc req st)
           = Response (updated_body n) 200).
Proof.
  intros W svc req st. unfold Api.BulkStatusUpdate_post.
  destruct (update_maintenance_status_bulk svc (world st)) as [[n | e] w];
    simpl; repeat split; intros k Hk; inversion Hk; reflexivity.
Qed.

Example BulkStatusUpdate_post_no_token :
  Api.BulkStatusUpdate_post (Service.maintenance_service Samples.engine)
    (Samples.post None) (Samples.fresh Samples.sample_store)
  = (Response (updated_body 1) 200,
     Samples.fresh
       (mk_store Samples.day_2024_06_01
          [set_status overdue Samples.day_2024_06_01 Samples.M100; Samples.M101])).
Proof. reflexivity. Qed.

(** C3 fails on the flask-restx resource [BulkStatusUpdate.post]: a POST
    to /status/update-bulk carrying a driver's token, whose role claim
    lacks fleet-admin, is refused with 403 by the blueprint route
    [update_statuses_bulk] with the table untouched, as the claim says; the
    resource, registered for the same path without [require_auth] and
    [require_role], performs the recomputation on the same request (item
    M100 becomes overdue) and answers 200 with the count. *)
Theorem BulkStatusUpdate_post_skips_role_gate :
  has_role "fleet-admin" Samples.driver_claims = Return false
  /\ Routes.update_statuses_bulk Samples.sample_decode Samples.cfg_issuer
       (Service.maintenance_service Samples.engine)
       (Samples.post (Some "Bearer driver.jwt")) (Samples.fresh Samples.sample_store)
     = (Aborted 403 "Insufficient permissions: fleet-admin role required",
        set_user Samples.driver_claims (Samples.fresh Samples.sample_store))
  /\ Api.BulkStatusUpdate_post (Service.maintenance_service Samples.engine)
       (Samples.post (Some "Bearer driver.jwt")) (Samples.fresh Samples.sample_store)
     = (Response (updated_body 1) 200,
        Samples.fresh
          (mk_store Samples.day_2024_06_01
             [set_status overdue Samples.day_2024_06_01 Samples.M100; Samples.M101])).
Proof.
  split; [|split].
  - reflexivity.
  - vm_compute. reflexivity.
  - vm_compute. reflexivity.
Qed.

(** ** The status engine (C1, C2) *)

Import Service.

Section StatusEngine.

Variable ec : engine_config.

Lemma status_eqb_eq (a b : Status) : status_eqb a b = true <-> a = b.
Proof. destruct a, b; simpl; split; intros H; try reflexivity; discriminate. Qed.

Lemma status_eqb_refl (a : Status) : status_eqb a a = true.
Proof. apply status_eqb_eq. reflexivity. Qed.

Lemma derive_status_terminal (now_ dd dm cm : Z) (prior : Status) :
  is_terminal prior = true -> derive_status ec now_ dd dm cm prior = prior.
Proof. intros H. unfold derive_status. rewrite H. reflexivity. Qed.

Lemma derive_status_not_terminal (now_ dd dm cm : Z) (prior : Status) :
  is_terminal prior = false ->
  is_terminal (derive_status ec now_ dd dm cm prior) = false.
Proof.
  intros H. unfold derive_status. rewrite H.
  destruct (past_due now_ dd dm cm); [reflexivity|].
  destruct (near_due ec now_ dd dm cm); [reflexivity|].
  destruct prior; reflexivity.
Qed.

(** Deriving from a derived status changes nothing. *)
Lemma derive_status_idempotent (now_ dd dm cm : Z) (prior : Status) :
  derive_status ec now_ dd dm cm (derive_status ec now_ dd dm cm prior)
  = derive_status ec now_ dd dm cm prior.
Proof.
  unfold derive_status.
  destruct (is_terminal prior) eqn:Ht.
  - rewrite Ht. reflexivity.
  - destruct (past_due now_ dd dm cm); [reflexivity|].
    destruct (near_due ec now_ dd dm cm); [reflexivity|].
    destruct prior; try reflexivity; discriminate.
Qed.

Lemma past_due_iff (now_ dd dm cm : Z) :
  past_due now_ dd dm cm = true <-> dd < now_ \/ cm >= dm.
Proof. unfold past_due. rewrite orb_true_iff, Z.ltb_lt, Z.leb_le. lia. Qed.

Lemma near_due_iff (now_ dd dm cm : Z) :
  near_due ec now_ dd dm cm = true <->
  dd - now_ <= soon_days ec \/ dm - cm <= mileage_margin ec.
Proof. unfold near_due. rewrite orb_true_iff, !Z.leb_le. tauto. Qed.

Lemma bulk_scan_fst_snd (now_ : Z) (rows : list item) :
  bulk_scan ec now_ rows = (fst (bulk_scan ec now_ rows), snd (bulk_scan ec now_ rows)).
Proof. destruct (bulk_scan ec now_ rows); reflexivity. Qed.

(** A second scan at the same time writes nothing. *)
Lemma bulk_scan_idempotent (now_ : Z) (rows : list item) :
  bulk_scan ec now_ (fst (bulk_scan ec now_ rows))
  = (fst (bulk_scan ec now_ rows), 0).
Proof.
  induction rows as [|i rest IH]; [reflexivity|].
  simpl. destruct (bulk_scan ec now_ rest) as [rest' n] eqn:E. simpl in IH.
  destruct (is_terminal (status i)) eqn:Ht.
  - simpl. rewrite IH, Ht. reflexivity.
  - destruct (status_eqb (derive_item ec now_ i) (status i)) eqn:Hs.
    + simpl. rewrite IH, Ht, Hs. reflexivity.
    + simpl. rewrite IH. unfold derive_item in *. simpl.
      rewrite derive_status_not_terminal by exact Ht.
      rewrite derive_status_idempotent, status_eqb_refl. reflexivity.
Qed.

(** The scan keeps every row whose status is terminal. *)
Lemma bulk_scan_keeps_terminal (now_ : Z) (rows : list item) (i : item) :
  In i rows -> is_terminal (status i) = true ->
  In i (fst (bulk_scan ec now_ rows)).
Proof.
  induction rows as [|j rest IH]; [contradiction|].
  intros [-> | Hin] Ht; simpl;
    destruct (bulk_scan ec now_ rest) as [rest' n] eqn:E; simpl in IH.
  - rewrite Ht. left. reflexivity.
  - destruct (is_terminal (status j)); [right; auto|].
    destruct (status_eqb (derive_item ec now_ j) (status j)); right; auto.
Qed.

(** After a scan, every non-terminal row holds its derived status. *)
Lemma bulk_scan_settled (now_ : Z) (rows : list item) (i : item) :
  In i (fst (bulk_scan ec now_ rows)) -> is_terminal (status i) = false ->
  derive_item ec now_ i = status i.
Proof.
  induction rows as [|j rest IH]; [contradiction|].
  simpl. destruct (bulk_scan ec now_ rest) as [rest' n] eqn:E. simpl in IH.
  destruct (is_terminal (status j)) eqn:Ht.
  - simpl. intros [<- | Hin] Hi; [congruence | auto].
  - destruct (status_eqb (derive_item ec now_ j) (status j)) eqn:Hs; simpl.
    + intros [<- | Hin] Hi; [apply status_eqb_eq, Hs | auto].
    + intros [<- | Hin] Hi; [|auto].
      unfold derive_item. simpl. apply derive_status_idempotent.
Qed.

(** The scan keeps every row that already holds its derived status. *)
Lemma bulk_scan_keeps_settled (now_ : Z) (rows : list item) (i : item) :
  In i rows -> derive_item ec now_ i = status i ->
  In i (fst (bulk_scan ec now_ rows)).
Proof.
  induction rows as [|j rest IH]; [contradiction|].
  intros [-> | Hin] Hs; simpl;
    destruct (bulk_scan ec now_ rest) as [rest' n] eqn:E; simpl in IH.
  - destruct (is_terminal (status i)); [left; reflexivity|].
    rewrite Hs, status_eqb_refl. left. reflexivity.
  - destruct (is_terminal (status j)); [right; auto|].
    destruct (status_eqb (derive_item ec now_ j) (status j)); right; auto.
Qed.

Lemma bulk_update_idempotent (w : store) :
  bulk_update ec (snd (bulk_update ec w)) = (Return 0, snd (bulk_update ec w)).
Proof.
  unfold bulk_update. rewrite (bulk_scan_fst_snd (now w) (table w)). simpl.
  rewrite bulk_scan_idempotent. reflexivity.
Qed.

End StatusEngine.

(** C1: the recomputed status is a function of the due date, the due
    mileage, the current mileage, the prior status and now, with the
    configured window and margin: a terminal prior status is returned
    unchanged; otherwise the result is overdue when the due date is before
    now or the current mileage has reached the due mileage; otherwise
    due_soon when the due date is within the window or the mileage within
    the margin; otherwise in_progress when that was the prior status, and
    scheduled in every other case.  Equal inputs give equal results, and the
    bulk update keeps every row whose status is terminal. *)
Theorem derive_status_spec :
  forall (ec : engine_config) (now_ dd dm cm : Z) (prior : Status),
    (prior = completed \/ prior = cancelled ->
     derive_status ec now_ dd dm cm prior = prior)
    /\ (prior <> completed -> prior <> cancelled ->
        (dd < now_ \/ cm >= dm ->
         derive_status ec now_ dd dm cm prior = overdue)
        /\ (~ (dd < now_ \/ cm >= dm) ->
            (dd - now_ <= soon_days ec \/ dm - cm <= mileage_margin ec ->
             derive_status ec now_ dd dm cm prior = due_soon)
            /\ (~ (dd - now_ <= soon_days ec \/ dm - cm <= mileage_margin ec) ->
                derive_status ec now_ dd dm cm prior
                = match prior with in_progress => in_progress | _ => scheduled end)))
    /\ (forall now' dd' dm' cm' prior',
           now' = now_ -> dd' = dd -> dm' = dm -> cm' = cm -> prior' = prior ->
           derive_status ec now' dd' dm' cm' prior'
           = derive_status ec now_ dd dm cm prior)
    /\ (forall (w : store) (i : item),
           In i (table w) -> status i = completed \/ status i = cancelled ->
           In i (table (snd (bulk_update ec w)))).
Proof.
  intros ec now_ dd dm cm prior. split; [|split; [|split]].
  - intros [-> | ->]; reflexivity.
  - intros Hc Hx.
    assert (is_terminal prior = false) as Ht by (destruct prior; try reflexivity; congruence).
    unfold derive_status. rewrite Ht. split.
    + intros H. apply past_due_iff in H. rewrite H. reflexivity.
    + intros H. rewrite <- past_due_iff in H.
      apply not_true_is_false in H. rewrite H. split.
      * intros H2. apply (near_due_iff ec) in H2. rewrite H2. reflexivity.
      * intros H2. rewrite <- (near_due_iff ec) in H2.
        apply not_true_is_false in H2. rewrite H2. reflexivity.
  - intros; subst; reflexivity.
  - intros w i Hin Hs. unfold bulk_update.
    rewrite (bulk_scan_fst_snd ec (now w) (table w)). simpl.
    apply bulk_scan_keeps_terminal; [exact Hin|].
    destruct Hs as [-> | ->]; reflexivity.
Qed.

(** The scenario of the spec: M100, due 2024-01-01 at 5000 of 5000 miles
    and scheduled, is overdue after a bulk update on 2024-06-01. *)
Example bulk_update_M100 :
  bulk_update Samples.engine Samples.sample_store
  = (Return 1,
     mk_store Samples.day_2024_06_01
       [set_status overdue Samples.day_2024_06_01 Samples.M100; Samples.M101]).
Proof. reflexivity. Qed.

(** C2: the bulk update is idempotent.  For every store, a bulk update
    run on the store a first bulk update left, at the same time and
    mileages, returns 0 and leaves the store as it is; through the endpoint
    [BulkStatusUpdate.post], the second response carries
    [updated_count = 0].  The first run keeps every row whose derived status
    is its stored status, and after it every non-terminal row holds its
    derived status. *)
Theorem bulk_status_update_idempotent :
  forall (ec : engine_config) (w : store) (req1 req2 : request) (st : ctx store),
    bulk_update ec (snd (bulk_update ec w)) = (Return 0, snd (bulk_update ec w))
    /\ Api.BulkStatusUpdate_post (maintenance_service ec) req2
         (snd (Api.BulkStatusUpdate_post (maintenance_service ec) req1 st))
       = (Response (updated_body 0) 200,
          snd (Api.BulkStatusUpdate_post (maintenance_service ec) req1 st))
    /\ (forall i : item,
           In i (table w) -> derive_item ec (now w) i = status i ->
           In i (table (snd (bulk_update ec w))))
    /\ (forall i : item,
           In i (table (snd (bulk_update ec w))) ->
           is_terminal (status i) = false ->
           derive_item ec (now w) i = status i).
Proof.
  intros ec w req1 req2 st. split; [apply bulk_update_idempotent|]. split.
  - unfold Api.BulkStatusUpdate_post. simpl.
    pose proof (bulk_update_idempotent ec (world st)) as H.
    unfold bulk_update in *.
    destruct (bulk_scan ec (now (world st)) (table (world st))) as [rows n] eqn:E.
    simpl in *.
    destruct (bulk_scan ec (now (world st)) rows) as [rows' n'] eqn:E'.
    inversion H; subst. reflexivity.
  - unfold bulk_update.
    rewrite (bulk_scan_fst_snd ec (now w) (table w)). simpl. split.
    + intros i. apply bulk_scan_keeps_settled.
    + intros i. apply bulk_scan_settled.
Qed.

(** ** Internal failures (C8) *)

Section InternalFailure.

Lemma prefix_refl (x : string) : String.prefix x x = true.
Proof.
  induction x as [|c x' IH]; simpl; [reflexivity|].
  destruct (ascii_dec c c) as [_ | Hne]; [exact IH | contradiction].
Qed.

Lemma is_substring_self (x : string) : is_substring x x = true.
Proof.
  destruct x as [|c x']; [reflexivity|].
  unfold is_substring; fold is_substring.
  rewrite prefix_refl. reflexivity.
Qed.

Lemma is_substring_append (p x : string) : is_substring x (p ++ x) = true.
Proof.
  induction p as [|c p' IH]; simpl.
  - apply is_substring_self.
  - rewrite IH. apply orb_true_r.
Qed.

Variable W : Type.
Variable svc : service W.

Lemma get_maintenance_items_failure (req : request) (st : ctx W) (e : exn) (w : W) :
  list_call svc req st = (Raise e, w) ->
  Routes.get_maintenance_items_body svc req st
  = (Response (error_body (exn_str e)) 500, with_world st w).
Proof.
  unfold list_call, Routes.get_maintenance_items_body. intros H.
  rewrite H. reflexivity.
Qed.

Lemma MaintenanceList_get_failure (req : request) (st : ctx W) (e : exn) (w : W) :
  list_call svc req st = (Raise e, w) ->
  Api.MaintenanceList_get_body svc req st
  = (Aborted 500 ("Internal server error: " ++ exn_str e), with_world st w).
Proof.
  unfold list_call, Api.MaintenanceList_get_body. intros H.
  rewrite H. reflexivity.
Qed.

End InternalFailure.

(** C8, as stated, fails: when the service layer raises, both list
    handlers answer 500 with the text of the exception in the message, here
    the address, port and user of the database. *)
Lemma internal_failure_message_leaked :
  Routes.get_maintenance_items Samples.sample_decode Samples.cfg_auth_disabled
    (Samples.failing_service Samples.db_error)
    (mk_request "GET" None []) (Samples.fresh Samples.sample_store)
  = (Response
       (Json (JDict [("error",
          JStr "connection to server at 10.0.3.7, port 5433 failed: password authentication failed for user postgres")]))
       500,
     Samples.fresh Samples.sample_store)
  /\ Api.MaintenanceList_get Samples.sample_decode Samples.cfg_auth_disabled
       (Samples.failing_service Samples.db_error)
       (mk_request "GET" None []) (Samples.fresh Samples.sample_store)
     = (Aborted 500
          "Internal server error: connection to server at 10.0.3.7, port 5433 failed: password authentication failed for user postgres",
        Samples.fresh Samples.sample_store).
Proof. split; reflexivity. Qed.

(** C8, amended: when the service call of a list handler raises an
    exception [e], the handler answers 500 with a structured error that
    carries [str(e)]: the blueprint handler returns the JSON object
    [{'error': str(e)}] with status 500, the flask-restx handler aborts
    with 500 and the message 'Internal server error: ' followed by
    [str(e)]; in both the text of the exception is part of the message. *)
Theorem internal_failure_reply :
  forall (W : Type) (svc : service W) (req : request) (st : ctx W)
         (e : exn) (w : W),
    list_call svc req st = (Raise e, w) ->
    Routes.get_maintenance_items_body svc req st
    = (Response (Json (JDict [("error", JStr (exn_str e))])) 500, with_world st w)
    /\ Api.MaintenanceList_get_body svc req st
       = (Aborted 500 ("Internal server error: " ++ exn_str e), with_world st w)
    /\ is_substring (exn_str e) ("Internal server error: " ++ exn_str e) = true.
Proof.
  intros W svc req st e w H. split; [|split].
  - apply get_maintenance_items_failure, H.
  - apply MaintenanceList_get_failure, H.
  - apply is_substring_append.
Qed.

(** The theorem at a failing database. *)
Lemma internal_failure_reply_witness :
  Routes.get_maintenance_items_body (Samples.failing_service Samples.db_error)
    (mk_request "GET" None []) (Samples.fresh Samples.sample_store)
  = (Response (Json (JDict [("error", JStr (exn_str Samples.db_error))])) 500,
     Samples.fresh Samples.sample_store).
Proof.
  exact (proj1 (@internal_failure_reply store
                  (Samples.failing_service Samples.db_error)
                  (mk_request "GET" None []) (Samples.fresh Samples.sample_store)
                  Samples.db_error Samples.sample_store eq_refl)).
Defined.

(** ** Pagination (C5) *)

Section Pagination.

Variable A : Type.

(** Cutting a list into [c] chunks of [n] and gluing them gives the list
    back, when [c] chunks are enough. *)
Lemma concat_chunks (n c : nat) (l : list A) :
  (List.length l <= c * n)%nat ->
  List.concat (map (fun j => firstn n (skipn (j * n) l)) (seq 0 c)) = l.
Proof.
  revert l. induction c as [|c IH]; intros l Hlen.
  - destruct l; [reflexivity | simpl in Hlen; lia].
  - cbn [seq map List.concat]. rewrite <- seq_shift, map_map.
    rewrite (map_ext _ (fun j => firstn n (skipn (j * n) (skipn n l)))).
    + rewrite IH by (rewrite length_skipn; lia).
      cbn [Nat.mul skipn]. apply firstn_skipn.
    + intros j. rewrite skipn_skipn. do 2 f_equal. lia.
Qed.

Lemma ceil_div_bounds (n p : Z) :
  1 <= p -> p * (ceil_div n p - 1) < n <= p * ceil_div n p.
Proof.
  intros Hp. unfold ceil_div.
  pose proof (Z.div_mod (n + p - 1) p ltac:(lia)) as Hdm.
  pose proof (Z.mod_pos_bound (n + p - 1) p ltac:(lia)) as Hm.
  lia.
Qed.

Lemma page_slice_chunk (j : nat) (p : Z) (l : list A) :
  1 <= p ->
  page_slice (Z.of_nat (S j)) p l
  = firstn (Z.to_nat p) (skipn (j * Z.to_nat p) l).
Proof.
  intros Hp. unfold page_slice. do 2 f_equal.
  replace (Z.of_nat (S j) - 1) with (Z.of_nat j) by lia.
  rewrite Z2Nat.inj_mul by lia. rewrite Nat2Z.id. reflexivity.
Qed.

Lemma page_slice_beyond (pg p : Z) (l : list A) :
  1 <= p -> ceil_div (Z.of_nat (List.length l)) p < pg ->
  page_slice pg p l = [].
Proof.
  intros Hp Hpg. unfold page_slice.
  pose proof (ceil_div_bounds (Z.of_nat (List.length l)) Hp) as [_ Hb].
  rewrite skipn_all2; [apply firstn_nil|].
  assert (Z.of_nat (List.length l) <= (pg - 1) * p) by nia.
  lia.
Qed.

Lemma concat_page_slices (p : Z) (l : list A) :
  1 <= p ->
  List.concat (map (fun pg => page_slice pg p l)
              (page_numbers (ceil_div (Z.of_nat (List.length l)) p)))
  = l.
Proof.
  intros Hp. unfold page_numbers.
  rewrite <- seq_shift, !map_map.
  rewrite (map_ext _ (fun j => firstn (Z.to_nat p) (skipn (j * Z.to_nat p) l)))
    by (intros j; apply page_slice_chunk, Hp).
  apply concat_chunks.
  pose proof (ceil_div_bounds (Z.of_nat (List.length l)) Hp) as [Hlo Hb].
  assert (0 <= ceil_div (Z.of_nat (List.length l)) p) by nia.
  apply Nat2Z.inj_le. rewrite Nat2Z.inj_mul, !Z2Nat.id by lia. lia.
Qed.

End Pagination.

(** C5: for every list of N items that match the filters and every page
    size P >= 1, each page of the listing reports total = N and pages =
    ceil(N/P), with the page and page size asked for; a page beyond the
    last has no items and the same total and pages; the item slices of
    pages 1 to pages, glued in order, are the list itself, so no item is
    repeated or left out.  The listing returns this pagination of the rows
    that match, and both list handlers return page 1 at 10 items a page
    when the query names neither. *)
Theorem paginate_contract :
  forall (l : list item) (P : Z),
    1 <= P ->
    (forall pg : Z,
        total (paginate pg P l) = Z.of_nat (List.length l)
        /\ pages (paginate pg P l) = ceil_div (Z.of_nat (List.length l)) P
        /\ page (paginate pg P l) = pg
        /\ per_page (paginate pg P l) = P)
    /\ P * (ceil_div (Z.of_nat (List.length l)) P - 1)
         < Z.of_nat (List.length l)
         <= P * ceil_div (Z.of_nat (List.length l)) P
    /\ (forall pg : Z,
           ceil_div (Z.of_nat (List.length l)) P < pg ->
           items (paginate pg P l) = [])
    /\ List.concat (map (fun pg => items (paginate pg P l))
                   (page_numbers (ceil_div (Z.of_nat (List.length l)) P)))
       = l
    /\ (forall (f : filters) (pg : Z) (w : store),
           list_items f pg P w
           = (Return (paginate pg P (filter (matches f) (table w))), w))
    /\ (forall (ec : engine_config) (req : request) (st : ctx store),
           Args.get "page" (args req) = None ->
           Args.get "per_page" (args req) = None ->
           Routes.get_maintenance_items_body (maintenance_service ec) req st
           = (Response
                (Page (paginate 1 10
                         (filter (matches (Args.filters_of (args req)))
                                 (table (world st)))))
                200, st)
           /\ Api.MaintenanceList_get_body (maintenance_service ec) req st
              = Routes.get_maintenance_items_body (maintenance_service ec) req st).
Proof.
  intros l P HP. split; [|split; [|split; [|split; [|split]]]].
  - intros pg. repeat split.
  - apply ceil_div_bounds, HP.
  - intros pg Hpg. simpl. apply page_slice_beyond; assumption.
  - simpl. apply concat_page_slices, HP.
  - reflexivity.
  - intros ec req st H1 H2.
    unfold Routes.get_maintenance_items_body, Api.MaintenanceList_get_body,
      Args.get_int.
    rewrite H1, H2. destruct st as [g0 w0]. split; reflexivity.
Qed.

(** The theorem at five rows and two items a page: three pages, of 2, 2
    and 1 items. *)
Lemma paginate_contract_witness :
  pages (paginate 1 2 (repeat Samples.M100 5)) = 3
  /\ map (fun pg => List.length (items (paginate pg 2 (repeat Samples.M100 5))))
         (page_numbers 3) = [2%nat; 2%nat; 1%nat]
  /\ items (paginate 4 2 (repeat Samples.M100 5)) = [].
Proof.
  pose proof (@paginate_contract (repeat Samples.M100 5) 2 ltac:(lia)) as H.
  destruct H as [H1 [_ [H3 _]]].
  split; [exact (proj1 (proj2 (H1 1)))|].
  split; [reflexivity|].
  apply H3. vm_compute. reflexivity.
Defined.

(** ** The item handlers *)

Import Items.

Section ItemHandlers.

Variable W : Type.
Variable lib : library.
Variable svc : item_service W.
Variable sch : schemas.

Lemma with_world_same (st : ctx W) : with_world st (world st) = st.
Proof. destruct st; reflexivity. Qed.

Lemma get_item_missing (item_id_ : string) (st : ctx W) (w : W) :
  get_maintenance_item svc item_id_ (world st) = (Done None, w) ->
  except_exception lib (get_maintenance_item_try svc item_id_) st
  = (Response (error_body "Maintenance item not found") 404, with_world st w)
  /\ except_abort lib (MaintenanceItem_get_try svc item_id_) st
     = (Aborted 500 ("Internal server error: " ++ http_str lib 404),
        with_world st w).
Proof.
  intros H.
  unfold except_exception, except_abort, get_maintenance_item_try,
    MaintenanceItem_get_try, Try.bind.
  rewrite H. split; reflexivity.
Qed.

Lemma delete_item_missing (item_id_ : string) (st : ctx W) (w : W) :
  delete_maintenance_item svc item_id_ (world st) = (Done false, w) ->
  except_exception lib (delete_maintenance_item_try svc item_id_) st
  = (Response (error_body "Maintenance item not found") 404, with_world st w)
  /\ except_abort lib (MaintenanceItem_delete_try svc item_id_) st
     = (Aborted 500 ("Internal server error: " ++ http_str lib 404),
        with_world st w).
Proof.
  intros H.
  unfold except_exception, except_abort, delete_maintenance_item_try,
    MaintenanceItem_delete_try, Try.bind.
  rewrite H. split; reflexivity.
Qed.

Lemma api_item_codes (item_id_ : string) (st : ctx W) :
  ok_or_500 (fst (except_abort lib (MaintenanceItem_get_try svc item_id_) st))
  /\ ok_or_500 (fst (except_abort lib (MaintenanceItem_delete_try svc item_id_) st)).
Proof.
  unfold except_abort, MaintenanceItem_get_try, MaintenanceItem_delete_try,
    Try.bind, ok_or_500.
  split.
  - destruct (get_maintenance_item svc item_id_ (world st)) as [[[i|]|r] w];
      simpl; eauto.
  - destruct (delete_maintenance_item svc item_id_ (world st)) as [[[|]|r] w];
      simpl; eauto.
Qed.

End ItemHandlers.

(** A missing item on GET: the blueprint handler answers 404 with
    'Maintenance item not found'; the flask-restx handler raises the 404
    inside its own [try], catches it as an [Exception] and answers 500 with
    the text of the caught exception. *)
Theorem item_get_not_found :
  forall (W : Type) (lib : library) (svc : item_service W)
         (item_id_ : string) (st : ctx W) (w : W),
    get_maintenance_item svc item_id_ (world st) = (Done None, w) ->
    except_exception lib (get_maintenance_item_try svc item_id_) st
    = (Response (error_body "Maintenance item not found") 404, with_world st w)
    /\ except_abort lib (MaintenanceItem_get_try svc item_id_) st
       = (Aborted 500 ("Internal server error: " ++ http_str lib 404),
          with_world st w).
Proof. intros. apply get_item_missing. assumption. Qed.

Lemma item_get_not_found_witness :
  get_maintenance_item_view ItemSamples.sample_library Samples.sample_decode
    Samples.cfg_auth_disabled ItemSamples.table_service
    (ItemSamples.get_ None) "M999" (Samples.fresh Samples.sample_store)
  = (Response (error_body "Maintenance item not found") 404,
     Samples.fresh Samples.sample_store)
  /\ MaintenanceItem_get ItemSamples.sample_library Samples.sample_decode
       Samples.cfg_auth_disabled ItemSamples.table_service
       (ItemSamples.get_ None) "M999" (Samples.fresh Samples.sample_store)
     = (Aborted 500 ("Internal server error: " ++ ItemSamples.not_found_text),
        Samples.fresh Samples.sample_store).
Proof.
  exact (@item_get_not_found store ItemSamples.sample_library
           ItemSamples.table_service "M999"
           (Samples.fresh Samples.sample_store) Samples.sample_store eq_refl).
Defined.

(** A missing item on DELETE: 404 from the blueprint handler, 500 from the
    flask-restx handler, for the same reason. *)
Theorem item_delete_not_found :
  forall (W : Type) (lib : library) (svc : item_service W)
         (item_id_ : string) (st : ctx W) (w : W),
    delete_maintenance_item svc item_id_ (world st) = (Done false, w) ->
    except_exception lib (delete_maintenance_item_try svc item_id_) st
    = (Response (error_body "Maintenance item not found") 404, with_world st w)
    /\ except_abort lib (MaintenanceItem_delete_try svc item_id_) st
       = (Aborted 500 ("Internal server error: " ++ http_str lib 404),
          with_world st w).
Proof. intros. apply delete_item_missing. assumption. Qed.

Lemma item_delete_not_found_witness :
  except_exception ItemSamples.sample_library
    (delete_maintenance_item_try ItemSamples.table_service "M999")
    (Samples.fresh Samples.sample_store)
  = (Response (error_body "Maintenance item not found") 404,
     Samples.fresh Samples.sample_store)
  /\ except_abort ItemSamples.sample_library
       (MaintenanceItem_delete_try ItemSamples.table_service "M999")
       (Samples.fresh Samples.sample_store)
     = (Aborted 500 ("Internal server error: " ++ ItemSamples.not_found_text),
        Samples.fresh Samples.sample_store).
Proof.
  exact (@item_delete_not_found store ItemSamples.sample_library
           ItemSamples.table_service "M999"
           (Samples.fresh Samples.sample_store) Samples.sample_store eq_refl).
Defined.

(** The flask-restx handlers for GET and DELETE of an item answer 200 or
    500 and nothing else: never the 404 they raise. *)
Theorem api_item_never_404 :
  forall (W : Type) (lib : library) (svc : item_service W)
         (item_id_ : string) (st : ctx W),
    ok_or_500 (fst (except_abort lib (MaintenanceItem_get_try svc item_id_) st))
    /\ ok_or_500 (fst (except_abort lib (MaintenanceItem_delete_try svc item_id_) st)).
Proof. intros. apply api_item_codes. Qed.

Section ItemWrites.

Variable W : Type.
Variable lib : library.
Variable sch : schemas.

Lemma create_invalid (svc : item_service W) (rq : json_request) (st : ctx W)
    (payload messages : json) :
  json_body rq = Done payload ->
  load_create sch payload = Failed (Validation messages) ->
  except_validation lib (create_maintenance_item_try svc sch rq) st
  = (Response (errors_body messages) 400, st).
Proof.
  intros Hj Hl.
  unfold except_validation, create_maintenance_item_try, Try.bind, lift.
  rewrite Hj, Hl. rewrite with_world_same. reflexivity.
Qed.

Lemma update_invalid (svc : item_service W) (rq : json_request) (item_id_ : string)
    (st : ctx W) (payload messages : json) :
  json_body rq = Done payload ->
  load_update sch true payload = Failed (Validation messages) ->
  except_validation lib (update_maintenance_item_try svc sch rq item_id_) st
  = (Response (errors_body messages) 400, st).
Proof.
  intros Hj Hl.
  unfold except_validation, update_maintenance_item_try, Try.bind, lift.
  rewrite Hj, Hl. rewrite with_world_same. reflexivity.
Qed.

Lemma write_bad_body (svc : item_service W) (rq : json_request) (item_id_ : string)
    (st : ctx W) (r : raised) :
  json_body rq = Failed r ->
  (forall messages, r <> Validation messages) ->
  except_validation lib (create_maintenance_item_try svc sch rq) st
  = (Response (error_body (str_raised lib r)) 500, st)
  /\ except_validation lib (update_maintenance_item_try svc sch rq item_id_) st
     = (Response (error_body (str_raised lib r)) 500, st).
Proof.
  intros Hj Hr.
  unfold except_validation, create_maintenance_item_try,
    update_maintenance_item_try, Try.bind, lift.
  rewrite Hj. rewrite with_world_same.
  destruct r as [m | code msg | e]; [exfalso; apply (Hr m); reflexivity | |];
    split; reflexivity.
Qed.

End ItemWrites.

(** A payload the schema rejects never reaches the service: the blueprint
    handlers for create and update answer 400 with the schema's messages
    under 'errors' and leave the state as it was, whatever the service
    is. *)
Theorem invalid_payload_never_reaches_service :
  forall (W : Type) (lib : library) (sch : schemas) (rq : json_request)
         (item_id_ : string) (st : ctx W) (payload : json),
    json_body rq = Done payload ->
    (forall (messages : json) (svc : item_service W),
        load_create sch payload = Failed (Validation messages) ->
        except_validation lib (create_maintenance_item_try svc sch rq) st
        = (Response (errors_body messages) 400, st))
    /\ (forall (messages : json) (svc : item_service W),
           load_update sch true payload = Failed (Validation messages) ->
           except_validation lib (update_maintenance_item_try svc sch rq item_id_) st
           = (Response (errors_body messages) 400, st)).
Proof.
  intros W lib sch rq item_id_ st payload Hj. split.
  - intros messages svc Hl. apply create_invalid with (payload := payload); assumption.
  - intros messages svc Hl. apply update_invalid with (payload := payload); assumption.
Qed.

Lemma invalid_payload_never_reaches_service_witness :
  create_maintenance_item_view ItemSamples.sample_library Samples.sample_decode
    Samples.cfg_auth_disabled ItemSamples.table_service ItemSamples.sample_schemas
    (mk_json_request (Samples.post None) (Done (JDict [("vehicle_id", JStr "VH-1")])))
    (Samples.fresh Samples.sample_store)
  = (Response
       (errors_body (JDict [("id", JList [JStr "Missing data for required field."])]))
       400,
     Samples.fresh Samples.sample_store).
Proof.
  exact (proj1 (@invalid_payload_never_reaches_service store
                  ItemSamples.sample_library ItemSamples.sample_schemas
                  (mk_json_request (Samples.post None)
                     (Done (JDict [("vehicle_id", JStr "VH-1")])))
                  "M100" (Samples.fresh Samples.sample_store)
                  (JDict [("vehicle_id", JStr "VH-1")]) eq_refl)
               (JDict [("id", JList [JStr "Missing data for required field."])])
               ItemSamples.table_service eq_refl).
Defined.

(** When [request.json] itself raises (the body is not JSON, so werkzeug
    raises an [HTTPException] with code 400 or 415), the blueprint handlers
    for create and update catch it as an [Exception]: they answer 500 with
    the text of the exception, call neither schema nor service, and leave
    the state as it was. *)
Theorem unreadable_body_is_500 :
  forall (W : Type) (lib : library) (sch : schemas) (svc : item_service W)
         (rq : json_request) (item_id_ : string) (st : ctx W) (r : raised),
    json_body rq = Failed r ->
    (forall messages, r <> Validation messages) ->
    except_validation lib (create_maintenance_item_try svc sch rq) st
    = (Response (error_body (str_raised lib r)) 500, st)
    /\ except_validation lib (update_maintenance_item_try svc sch rq item_id_) st
       = (Response (error_body (str_raised lib r)) 500, st).
Proof. intros. apply write_bad_body; assumption. Qed.

Lemma unreadable_body_is_500_witness :
  except_validation ItemSamples.sample_library
    (create_maintenance_item_try ItemSamples.table_service ItemSamples.sample_schemas
       (mk_json_request (Samples.post None) (Failed (Http 415 ""))))
    (Samples.fresh Samples.sample_store)
  = (Response (error_body "error") 500, Samples.fresh Samples.sample_store).
Proof.
  refine (proj1 (@unreadable_body_is_500 store ItemSamples.sample_library
                   ItemSamples.sample_schemas ItemSamples.table_service
                   (mk_json_request (Samples.post None) (Failed (Http 415 "")))
                   "M100" (Samples.fresh Samples.sample_store) (Http 415 "")
                   eq_refl _)).
  intros messages. discriminate.
Defined.

(** DELETE of an item asks for the fleet-admin role on the blueprint route
    only: a token whose payload lacks the role is answered 403 there and the
    service is not called, while the flask-restx handler, which carries
    [require_auth] alone, goes on to the delete. *)
Theorem item_delete_role_on_blueprint_only :
  forall (W : Type) (lib : library) (jwt_decode : decoder) (cfg : config)
         (svc : item_service W) (req : request) (item_id_ : string)
         (st : ctx W) (h token : string) (p : claims),
    String.eqb (method req) "OPTIONS" = false ->
    AUTH_DISABLED cfg = false ->
    truthy (OIDC_ISSUER cfg) = true ->
    authorization req = Some h ->
    well_formed_bearer h token ->
    jwt_decode token = Decoded p ->
    p <> [] ->
    has_role "fleet-admin" p = Return false ->
    delete_maintenance_item_view lib jwt_decode cfg svc req item_id_ st
    = (Aborted 403 "Insufficient permissions: fleet-admin role required",
       set_user p st)
    /\ MaintenanceItem_delete lib jwt_decode cfg svc req item_id_ st
       = except_abort lib (MaintenanceItem_delete_try svc item_id_) (set_user p st).
Proof.
  intros W lib jwt_decode cfg svc req item_id_ st h token p
         Hm Hd Hi Hh Hw Hp Hne Hr.
  unfold delete_maintenance_item_view, MaintenanceItem_delete.
  rewrite !(require_auth_bearer jwt_decode cfg req _ st Hm Hd Hh Hw).
  rewrite Hi, Hp. split; [|reflexivity].
  rewrite (require_role_user cfg "fleet-admin" _ st Hd Hne).
  rewrite Hr. reflexivity.
Qed.

Lemma item_delete_role_on_blueprint_only_witness :
  delete_maintenance_item_view ItemSamples.sample_library Samples.sample_decode
    Samples.cfg_issuer ItemSamples.table_service
    (ItemSamples.delete_ (Some "Bearer driver.jwt")) "M100"
    (Samples.fresh Samples.sample_store)
  = (Aborted 403 "Insufficient permissions: fleet-admin role required",
     set_user Samples.driver_claims (Samples.fresh Samples.sample_store))
  /\ MaintenanceItem_delete ItemSamples.sample_library Samples.sample_decode
       Samples.cfg_issuer ItemSamples.table_service
       (ItemSamples.delete_ (Some "Bearer driver.jwt")) "M100"
       (Samples.fresh Samples.sample_store)
     = (Response (message_body "Maintenance item deleted successfully") 200,
        set_user Samples.driver_claims
          (Samples.fresh (mk_store Samples.day_2024_06_01 [Samples.M101]))).
Proof.
  refine (@item_delete_role_on_blueprint_only store ItemSamples.sample_library
            Samples.sample_decode Samples.cfg_issuer ItemSamples.table_service
            (ItemSamples.delete_ (Some "Bearer driver.jwt")) "M100"
            (Samples.fresh Samples.sample_store)
            "Bearer driver.jwt" "driver.jwt" Samples.driver_claims
            eq_refl eq_refl eq_refl eq_refl
            (ex_intro _ "Bearer" (conj eq_refl eq_refl)) eq_refl _ eq_refl).
  discriminate.
Defined.

(** Summary and vehicle history ask for a token on the blueprint routes
    only: without an Authorization header the blueprint handlers answer 401
    and leave the state as it was, while the flask-restx handlers, which
    carry no decorator, make the service call and answer 200 with what it
    returns. *)
Theorem summary_and_history_open_on_api :
  forall (W : Type) (lib : library) (jwt_decode : decoder) (cfg : config)
         (svc : item_service W) (req : request) (vehicle : string) (st : ctx W),
    String.eqb (method req) "OPTIONS" = false ->
    AUTH_DISABLED cfg = false ->
    authorization req = None ->
    get_maintenance_summary_view lib jwt_decode cfg svc req st
    = (Aborted 401 "Authorization header is expected", st)
    /\ get_vehicle_history_view lib jwt_decode cfg svc req vehicle st
       = (Aborted 401 "Authorization header is expected", st)
    /\ world (snd (MaintenanceSummary_get lib svc req st))
       = snd (get_maintenance_summary svc (world st))
    /\ world (snd (VehicleHistory_get lib svc req vehicle st))
       = snd (get_vehicle_maintenance_history svc vehicle (world st))
    /\ (forall j : json,
           fst (get_maintenance_summary svc (world st)) = Done j ->
           fst (MaintenanceSummary_get lib svc req st) = Response (Json j) 200)
    /\ (forall j : json,
           fst (get_vehicle_maintenance_history svc vehicle (world st)) = Done j ->
           fst (VehicleHistory_get lib svc req vehicle st) = Response (Json j) 200).
Proof.
  intros W lib jwt_decode cfg svc req vehicle st Hm Hd Hh.
  unfold get_maintenance_summary_view, get_vehicle_history_view, require_auth.
  rewrite Hm, Hd, Hh.
  unfold MaintenanceSummary_get, VehicleHistory_get, except_abort,
    get_maintenance_summary_try, get_vehicle_history_try, Try.bind, ret.
  destruct (get_maintenance_summary svc (world st)) as [[j1 | r1] w1];
    destruct (get_vehicle_maintenance_history svc vehicle (world st)) as [[j2 | r2] w2];
    simpl; repeat split; intros j Hj; inversion Hj; reflexivity.
Qed.

Lemma summary_and_history_open_on_api_witness :
  get_maintenance_summary_view ItemSamples.sample_library Samples.sample_decode
    Samples.cfg_issuer ItemSamples.table_service (ItemSamples.get_ None)
    (Samples.fresh Samples.sample_store)
  = (Aborted 401 "Authorization header is expected",
     Samples.fresh Samples.sample_store).
Proof.
  exact (proj1 (@summary_and_history_open_on_api store ItemSamples.sample_library
                  Samples.sample_decode Samples.cfg_issuer ItemSamples.table_service
                  (ItemSamples.get_ None) "VH-1"
                  (Samples.fresh Samples.sample_store) eq_refl eq_refl eq_refl)).
Defined.

Example MaintenanceSummary_get_no_token :
  MaintenanceSummary_get ItemSamples.sample_library ItemSamples.table_service
    (ItemSamples.get_ None) (Samples.fresh Samples.sample_store)
  = (Response (Json (JDict [("total_items", JInt 2)])) 200,
     Samples.fresh Samples.sample_store).
Proof. reflexivity. Qed.

(** ** What the decorators can answer *)

(** [require_auth] either calls the view, on the state as it is or with
    the decoded payload of the token as [g.user], or answers 401 on the
    unchanged state, or leaves with the IndexError of an empty split;
    [require_role] either calls the view on the unchanged state, or answers
    401 or 403, or leaves with an AttributeError or a TypeError of the
    lookups in the payload.  Neither touches the world, and [require_auth]
    never answers 403. *)
Theorem decorator_outcomes :
  forall (W B : Type) (jwt_decode : decoder) (cfg : config) (req : request)
         (role : string) (f : view W B) (st : ctx W),
    (require_auth jwt_decode cfg req f st = f st
     \/ (exists token p,
            jwt_decode token = Decoded p
            /\ require_auth jwt_decode cfg req f st = f (set_user p st))
     \/ (exists msg, require_auth jwt_decode cfg req f st = (Aborted 401 msg, st))
     \/ require_auth jwt_decode cfg req f st
        = (Uncaught (IndexError "list index out of range"), st))
    /\ (require_role cfg role f st = f st
        \/ require_role cfg role f st = (Aborted 401 "User not authenticated", st)
        \/ require_role cfg role f st
           = (Aborted 403 ("Insufficient permissions: " ++ role ++ " role required"), st)
        \/ (exists e,
               require_role cfg role f st = (Uncaught e, st)
               /\ (exn_class e = "AttributeError" \/ exn_class e = "TypeError"))).
Proof.
  intros W B jwt_decode cfg req role f st. split.
  - unfold require_auth.
    destruct (String.eqb (method req) "OPTIONS"); [left; reflexivity|].
    destruct (AUTH_DISABLED cfg); [left; reflexivity|].
    destruct (authorization req) as [[|c h]|]; [right; right; left; eauto | |
                                                right; right; left; eauto].
    destruct (split (String c h)) as [|p0 rest]; [right; right; right; reflexivity|].
    destruct (String.eqb (lower p0) "bearer"); simpl;
      [|right; right; left; eauto].
    destruct rest as [|token [|x rest']];
      [right; right; left; eauto | | right; right; left; eauto].
    destruct (truthy (OIDC_ISSUER cfg)); [|left; reflexivity].
    destruct (jwt_decode token) as [p| | |] eqn:Hp;
      [right; left; eauto | | |]; right; right; left; eauto.
  - unfold require_role.
    destruct (AUTH_DISABLED cfg); [left; reflexivity|].
    destruct (user (g st)) as [[|kv p]|]; [right; left; reflexivity | |
                                           right; left; reflexivity].
    unfold has_role, roles_of, Py.bind.
    destruct (dict_get "realm_access" (kv :: p)) as [[| | | | |ra]|];
      try (right; right; right; eexists; split; [reflexivity | left; reflexivity]).
    + destruct (dict_get "roles" ra) as [[| | |s|l|d]|]; simpl;
        try (right; right; right; eexists; split; [reflexivity | right; reflexivity]).
      * destruct (is_substring role s); auto.
      * destruct (existsb _ l); auto.
      * destruct (dict_get role d); auto.
      * auto.
    + simpl. auto.
Qed.

(** ** The Authorization header *)

Section HeaderSplit.

Lemma split_from_skip (ws s : string) :
  all_space ws = true -> split_from None (ws ++ s) = split_from None s.
Proof.
  induction ws as [|c ws IH]; intros H; [reflexivity|].
  simpl in *. apply andb_prop in H. destruct H as [Hc Hws].
  rewrite Hc. apply IH, Hws.
Qed.

Lemma split_from_word (acc w s : string) :
  no_space w = true ->
  split_from (Some acc) (w ++ s) = split_from (Some (acc ++ w)) s.
Proof.
  revert acc. induction w as [|c w IH]; intros acc H.
  - simpl. rewrite append_empty_r. reflexivity.
  - simpl in *. apply andb_prop in H. destruct H as [Hc Hw].
    apply negb_true_iff in Hc. rewrite Hc. rewrite IH by exact Hw.
    rewrite append_assoc. reflexivity.
Qed.

Lemma split_from_start (w s : string) :
  is_word w -> split_from None (w ++ s) = split_from (Some w) s.
Proof.
  intros [Hne H]. destruct w as [|c w]; [contradiction|].
  simpl in *. apply andb_prop in H. destruct H as [Hc Hw].
  apply negb_true_iff in Hc. rewrite Hc.
  rewrite split_from_word by exact Hw. reflexivity.
Qed.

Lemma split_from_gap (acc ws s : string) :
  is_gap ws -> split_from (Some acc) (ws ++ s) = acc :: split_from None s.
Proof.
  intros [Hne H]. destruct ws as [|c ws]; [contradiction|].
  simpl in *. apply andb_prop in H. destruct H as [Hc Hws].
  rewrite Hc. rewrite split_from_skip by exact Hws. reflexivity.
Qed.

Lemma split_from_end (acc ws : string) :
  all_space ws = true -> split_from (Some acc) ws = [acc].
Proof.
  intros H. destruct ws as [|c ws]; [reflexivity|].
  rewrite <- (append_empty_r (String c ws)).
  rewrite split_from_gap by (split; [discriminate | exact H]). reflexivity.
Qed.

Lemma split_header (ws1 scheme ws2 token ws3 : string) :
  all_space ws1 = true -> is_word scheme -> is_gap ws2 -> is_word token ->
  all_space ws3 = true ->
  split (ws1 ++ scheme ++ ws2 ++ token ++ ws3) = [scheme; token].
Proof.
  intros H1 Hs H2 Ht H3. unfold split.
  rewrite split_from_skip by exact H1.
  rewrite split_from_start by exact Hs.
  rewrite split_from_gap by exact H2.
  rewrite split_from_start by exact Ht.
  rewrite split_from_end by exact H3. reflexivity.
Qed.

End HeaderSplit.

(** A header made of the word "bearer" in any case, a gap and a token,
    with any whitespace around, hands exactly this token to the decoder:
    when the call returns a payload the view runs with it as [g.user], and
    when the call raises, the handler of the exception raised answers 401
    with its own message, on the state as it was and without running the
    view.  Nothing is said of which tokens make the call raise. *)
Theorem bearer_header_reaches_decoder :
  forall (W B : Type) (jwt_decode : decoder) (cfg : config) (req : request)
         (f : view W B) (st : ctx W) (ws1 scheme ws2 token ws3 : string),
    String.eqb (method req) "OPTIONS" = false ->
    AUTH_DISABLED cfg = false ->
    truthy (OIDC_ISSUER cfg) = true ->
    authorization req = Some (ws1 ++ scheme ++ ws2 ++ token ++ ws3) ->
    all_space ws1 = true -> is_word scheme -> lower scheme = "bearer" ->
    is_gap ws2 -> is_word token -> all_space ws3 = true ->
    require_auth jwt_decode cfg req f st
    = match jwt_decode token with
      | Decoded payload => f (set_user payload st)
      | ExpiredSignatureError => (Aborted 401 "Token is expired", st)
      | InvalidTokenError => (Aborted 401 "Invalid token", st)
      | OtherException => (Aborted 401 "Token invalid", st)
      end.
Proof.
  intros W B jwt_decode cfg req f st ws1 scheme ws2 token ws3
         Hm Hd Hi Hh H1 Hs Hl H2 Ht H3.
  assert (well_formed_bearer (ws1 ++ scheme ++ ws2 ++ token ++ ws3) token) as Hw.
  { exists scheme. split; [apply split_header; assumption | exact Hl]. }
  rewrite (require_auth_bearer jwt_decode cfg req f st Hm Hd Hh Hw).
  rewrite Hi. reflexivity.
Qed.

Lemma bearer_header_reaches_decoder_witness :
  require_auth Samples.sample_decode Samples.cfg_issuer
    (Samples.post (Some "  BEARER   admin.jwt "))
    (fun st : ctx store => (Response (user (g st)) 200, st))
    (Samples.fresh Samples.sample_store)
  = (Response (Some Samples.admin_claims) 200,
     set_user Samples.admin_claims (Samples.fresh Samples.sample_store)).
Proof.
  refine (@bearer_header_reaches_decoder store (option claims)
            Samples.sample_decode Samples.cfg_issuer
            (Samples.post (Some "  BEARER   admin.jwt "))
            (fun st : ctx store => (Response (user (g st)) 200, st))
            (Samples.fresh Samples.sample_store)
            "  " "BEARER" "   " "admin.jwt" " "
            eq_refl eq_refl eq_refl eq_refl eq_refl _ eq_refl _ _ eq_refl);
    split; (discriminate || reflexivity).
Defined.

(** ** The role lookup *)

Section RoleLookup.

Lemma role_in_list (role : string) (l : list json) :
  existsb (fun j => match j with
                    | JStr s => String.eqb s role
                    | _ => false
                    end) l = true
  <-> In (JStr role) l.
Proof.
  rewrite existsb_exists. split.
  - intros [j [Hin Hj]]. destruct j; try discriminate.
    apply String.eqb_eq in Hj. subst. exact Hin.
  - intros Hin. exists (JStr role). split; [exact Hin | apply String.eqb_refl].
Qed.

Lemma prefix_append (x y : string) : String.prefix x (x ++ y) = true.
Proof.
  induction x as [|c x IH]; simpl; [destruct y; reflexivity|].
  destruct (ascii_dec c c) as [_ | Hne]; [exact IH | contradiction].
Qed.

Lemma is_substring_middle (pre x post : string) :
  is_substring x (pre ++ x ++ post) = true.
Proof.
  induction pre as [|c pre IH]; simpl.
  - pose proof (prefix_append x post) as H.
    destruct (x ++ post); cbn [is_substring]; rewrite H; reflexivity.
  - rewrite IH. apply orb_true_r.
Qed.

End RoleLookup.

(** When [realm_access.roles] of the payload is a list, the role check
    passes exactly when the role is an element of the list, as a string;
    a payload without [realm_access], or whose [realm_access] has no
    [roles], has no role. *)
Theorem has_role_of_role_list :
  forall (role : string) (p : claims),
    (dict_get "realm_access" p = None -> has_role role p = Return false)
    /\ (forall ra : list (string * json),
           dict_get "realm_access" p = Some (JDict ra) ->
           (dict_get "roles" ra = None -> has_role role p = Return false)
           /\ (forall l : list json,
                  dict_get "roles" ra = Some (JList l) ->
                  (has_role role p = Return true <-> In (JStr role) l)
                  /\ (has_role role p = Return false <-> ~ In (JStr role) l))).
Proof.
  intros role p. unfold has_role, roles_of, Py.bind. split.
  - intros H. rewrite H. reflexivity.
  - intros ra Hra. rewrite Hra. split.
    + intros H. rewrite H. reflexivity.
    + intros l Hl. rewrite Hl. simpl.
      pose proof (role_in_list role l) as Hin.
      destruct (existsb _ l).
      * split; split; intros H; try reflexivity; try discriminate.
        -- apply Hin. reflexivity.
        -- exfalso. apply H, Hin. reflexivity.
      * split; split; intros H; try reflexivity; try discriminate.
        -- apply Hin in H. discriminate.
        -- intros Hc. apply Hin in Hc. discriminate.
Qed.

(** When [realm_access.roles] of the payload is a string instead of a
    list, [role not in roles] is a substring test: every string that
    contains the role's name passes the role check. *)
Theorem has_role_of_role_string :
  forall (role pre post : string) (p : claims) (ra : list (string * json)),
    dict_get "realm_access" p = Some (JDict ra) ->
    dict_get "roles" ra = Some (JStr (pre ++ role ++ post)) ->
    has_role role p = Return true.
Proof.
  intros role pre post p ra Hra Hr. unfold has_role, roles_of, Py.bind.
  rewrite Hra, Hr. simpl. rewrite is_substring_middle. reflexivity.
Qed.

Lemma has_role_of_role_string_witness :
  has_role "fleet-admin"
    [("realm_access", JDict [("roles", JStr "not-a-fleet-administrator")])]
  = Return true.
Proof.
  exact (@has_role_of_role_string "fleet-admin" "not-a-" "istrator"
           [("realm_access", JDict [("roles", JStr "not-a-fleet-administrator")])]
           [("roles", JStr "not-a-fleet-administrator")] eq_refl eq_refl).
Defined.

(** ** The filters of the list handlers *)

Section Filters.

Lemma get_is_first (key : string) (a : list (string * string)) :
  Args.get key a = hd_error (Args.getlist key a).
Proof.
  unfold Args.getlist. induction a as [|[k v] a IH]; [reflexivity|].
  simpl. destruct (String.eqb k key); [reflexivity | exact IH].
Qed.

Lemma get_truthy_cases (key : string) (a : list (string * string)) :
  (Args.get key a = None \/ Args.get key a = Some EmptyString ->
   Args.get_truthy key a = None)
  /\ (forall c v, Args.get key a = Some (String c v) ->
                  Args.get_truthy key a = Some (String c v)).
Proof.
  unfold Args.get_truthy. split.
  - intros [H | H]; rewrite H; reflexivity.
  - intros c v H. rewrite H. reflexivity.
Qed.

End Filters.

(** The status and priority filters look at the first value of the key
    only: when it is absent or empty the filter is dropped, whatever values
    follow; when it is not empty the filter holds every value of the key in
    the order of the query, the first value first. *)
Theorem list_filters_first_value :
  forall a : list (string * string),
    (Args.get "status" a = None \/ Args.get "status" a = Some EmptyString ->
     f_status (Args.filters_of a) = None)
    /\ (forall c v, Args.get "status" a = Some (String c v) ->
           f_status (Args.filters_of a) = Some (Args.getlist "status" a)
           /\ hd_error (Args.getlist "status" a) = Some (String c v))
    /\ (Args.get "priority" a = None \/ Args.get "priority" a = Some EmptyString ->
        f_priority (Args.filters_of a) = None)
    /\ (forall c v, Args.get "priority" a = Some (String c v) ->
           f_priority (Args.filters_of a) = Some (Args.getlist "priority" a)
           /\ hd_error (Args.getlist "priority" a) = Some (String c v)).
Proof.
  intros a. unfold Args.filters_of. simpl.
  destruct (get_truthy_cases "status" a) as [Hs0 Hs1].
  destruct (get_truthy_cases "priority" a) as [Hp0 Hp1].
  repeat split.
  - intros H. rewrite (Hs0 H). reflexivity.
  - rewrite (Hs1 c v H). reflexivity.
  - rewrite <- get_is_first. exact H.
  - intros H. rewrite (Hp0 H). reflexivity.
  - rewrite (Hp1 c v H). reflexivity.
  - rewrite <- get_is_first. exact H.
Qed.

(** A query [?status=&status=overdue] filters nothing, and
    [?status=overdue&status=] filters on 'overdue' and on the empty name. *)
Example list_filters_empty_first :
  f_status (Args.filters_of [("status", ""); ("status", "overdue")]) = None
  /\ f_status (Args.filters_of [("status", "overdue"); ("status", "")])
     = Some ["overdue"; ""].
Proof. split; reflexivity. Qed.

(** ** Dates in ISO form *)

Section IsoDates.

Local Opaque Z.mul Z.add Z.div Z.modulo.

Lemma regex_matches_isoformat (y m d : Z) :
  0 <= y <= 9999 -> 1 <= m <= 12 -> 1 <= d <= 31 ->
  exists tl, regex_matches (isoformat y m d) = (y, m, d, EmptyString) :: tl.
Proof.
  intros Hy Hm Hd. unfold regex_matches, isoformat.
  rewrite group_Y_pad4 by exact Hy.
  destruct (@group_m_pad2 m (pad2 d) Hm) as [tlm Em].
  destruct (@group_d_pad2 d Hd) as [tld Ed].
  cbn [flat_map literal Ascii.eqb Bool.eqb app].
  rewrite Em. cbn [flat_map literal Ascii.eqb Bool.eqb app].
  rewrite Ed. cbn [map app]. eexists. reflexivity.
Qed.

Lemma length_append (a b : string) :
  String.length (a ++ b) = (String.length a + String.length b)%nat.
Proof. induction a as [|c a IH]; simpl; [reflexivity | rewrite IH; reflexivity]. Qed.

Lemma number_not_empty (s : string) (v : Z) :
  number s = Some v -> (1 <= String.length s)%nat.
Proof. destruct s; simpl; [discriminate | lia]. Qed.

Lemma day_text_not_empty (s : string) (v : Z) :
  day_text s v -> (1 <= String.length s)%nat.
Proof.
  intros [H | [c [-> _]]]; [apply number_not_empty in H; exact H | simpl; lia].
Qed.

End IsoDates.

(** On the text YYYY-MM-DD of a year up to 9999, a month 1 to 12 and a day
    1 to 31, [validate_date] decides the calendar: it returns the date when
    the day exists in that month of that year and the year is not 0000, and
    raises the ValueError otherwise; so the 29th of February is accepted
    exactly in leap years. *)
Theorem validate_date_decides_calendar :
  forall y m d : Z,
    0 <= y <= 9999 -> 1 <= m <= 12 -> 1 <= d <= 31 ->
    validate_date (isoformat y m d)
    = (if valid_date y m d then Return (mk_date y m d)
       else Raise (ValueError msg_invalid_date))
    /\ (validate_date (isoformat y 2 29) = Return (mk_date y 2 29)
        <-> 1 <= y /\ is_leap y = true).
Proof.
  assert (forall y m d : Z,
             0 <= y <= 9999 -> 1 <= m <= 12 -> 1 <= d <= 31 ->
             validate_date (isoformat y m d)
             = (if valid_date y m d then Return (mk_date y m d)
                else Raise (ValueError msg_invalid_date))) as Hmain.
  { intros y m d Hy Hm Hd. rewrite validate_date_strptime. unfold strptime_ymd.
    destruct (regex_matches_isoformat Hy Hm Hd) as [tl E]. rewrite E.
    destruct (valid_date y m d); reflexivity. }
  intros y m d Hy Hm Hd. split; [apply Hmain; assumption|].
  rewrite (Hmain y 2 29 Hy) by lia.
  unfold valid_date, days_in_month. simpl (2 =? 2).
  destruct (is_leap y); destruct (1 <=? y) eqn:H1; destruct (y <=? 9999) eqn:H2;
    simpl; split; try discriminate; try (intros [? ?]; discriminate);
    try (intros _; split; [lia | reflexivity]);
    try reflexivity; try (intros [? _]; lia).
Qed.

Lemma validate_date_decides_calendar_witness :
  validate_date "2023-02-29" = Raise (ValueError msg_invalid_date).
Proof.
  exact (proj1 (@validate_date_decides_calendar 2023 2 29
                  ltac:(lia) ltac:(lia) ltac:(lia))).
Defined.

(** A string [validate_date] accepts has 8 to 10 characters: nothing may
    precede the year or follow the day, not even whitespace. *)
Theorem validate_date_length :
  forall (s : string) (dt : date),
    validate_date s = Return dt ->
    (8 <= String.length s <= 10)%nat.
Proof.
  intros s dt H. rewrite validate_date_strptime in H.
  destruct (strptime_ymd s) as [d0|e] eqn:E; [|discriminate].
  apply strptime_ymd_sound in E.
  destruct E as [_ [ys [ms [ds [-> [Hly [_ [Hlm [Hnm [Hld Hnd]]]]]]]]]].
  apply number_not_empty in Hnm. apply day_text_not_empty in Hnd.
  rewrite length_append. cbn [String.length]. rewrite length_append.
  cbn [String.length]. lia.
Qed.

Lemma validate_date_length_witness :
  (8 <= String.length "2024-1-5" <= 10)%nat.
Proof.
  exact (@validate_date_length "2024-1-5" (mk_date 2024 1 5) eq_refl).
Defined.

(** ** The codes of the blueprint item handlers *)

(** Inside the blueprint handlers every exception is caught: whatever the
    service, the schema and [request.json] do, each handler returns a
    response, with a code of its own list. *)
Theorem blueprint_item_codes :
  forall (W : Type) (lib : library) (svc : item_service W) (sch : schemas)
         (rq : json_request) (item_id_ vehicle : string) (st : ctx W),
    responds_with [200; 404; 500]
      (fst (except_exception lib (get_maintenance_item_try svc item_id_) st))
    /\ responds_with [201; 400; 500]
         (fst (except_validation lib (create_maintenance_item_try svc sch rq) st))
    /\ responds_with [200; 404; 400; 500]
         (fst (except_validation lib (update_maintenance_item_try svc sch rq item_id_) st))
    /\ responds_with [200; 404; 500]
         (fst (except_exception lib (delete_maintenance_item_try svc item_id_) st))
    /\ responds_with [200; 500]
         (fst (except_exception lib (get_maintenance_summary_try svc) st))
    /\ responds_with [200; 500]
         (fst (except_exception lib (get_vehicle_history_try svc vehicle) st)).
Proof.
  intros W lib svc sch rq item_id_ vehicle st.
  unfold responds_with, except_exception, except_validation,
    get_maintenance_item_try, create_maintenance_item_try,
    update_maintenance_item_try, delete_maintenance_item_try,
    get_maintenance_summary_try, get_vehicle_history_try, Try.bind, lift, ret.
  repeat split.
  - destruct (get_maintenance_item svc item_id_ (world st)) as [[[i|]|r] w];
      simpl; do 2 eexists; (split; [reflexivity | simpl; auto]).
  - destruct (json_body rq) as [payload|[m|c x|e]];
      try (simpl; do 2 eexists; (split; [reflexivity | simpl; auto 6])).
    destruct (load_create sch payload) as [data|[m|c x|e]];
      try (simpl; do 2 eexists; (split; [reflexivity | simpl; auto 6])).
    destruct (create_maintenance_item svc data (world st)) as [[i|[m|c x|e]] w];
      simpl; do 2 eexists; (split; [reflexivity | simpl; auto 6]).
  - destruct (json_body rq) as [payload|[m|c x|e]];
      try (simpl; do 2 eexists; (split; [reflexivity | simpl; auto 6])).
    destruct (load_update sch true payload) as [data|[m|c x|e]];
      try (simpl; do 2 eexists; (split; [reflexivity | simpl; auto 6])).
    destruct (update_maintenance_item svc item_id_ data (world st))
      as [[[i|]|[m|c x|e]] w];
      simpl; do 2 eexists; (split; [reflexivity | simpl; auto 6]).
  - destruct (delete_maintenance_item svc item_id_ (world st)) as [[[|]|r] w];
      simpl; do 2 eexists; (split; [reflexivity | simpl; auto]).
  - destruct (get_maintenance_summary svc (world st)) as [[j|r] w];
      simpl; do 2 eexists; (split; [reflexivity | simpl; auto]).
  - destruct (get_vehicle_maintenance_history svc vehicle (world st)) as [[j|r] w];
      simpl; do 2 eexists; (split; [reflexivity | simpl; auto]).
Qed.

(** ** The key set *)

(** [get_public_keys] returns a key set exactly when an issuer is
    configured and the GET of the issuer's URL followed by
    '/protocol/openid-connect/certs' answers 200 with it; without an issuer
    it returns [None]; and it reads the answer of no other URL. *)
Theorem get_public_keys_spec :
  forall (http_get : string -> option (Z * json)) (cfg : config),
    (truthy (OIDC_ISSUER cfg) = false -> get_public_keys http_get cfg = None)
    /\ (forall jwks : json,
           get_public_keys http_get cfg = Some jwks
           <-> exists issuer,
                 OIDC_ISSUER cfg = Some issuer /\ issuer <> EmptyString
                 /\ http_get (issuer ++ "/protocol/openid-connect/certs")
                    = Some (200, jwks))
    /\ (forall other_get : string -> option (Z * json),
           (forall issuer, OIDC_ISSUER cfg = Some issuer ->
              other_get (issuer ++ "/protocol/openid-connect/certs")
              = http_get (issuer ++ "/protocol/openid-connect/certs")) ->
           get_public_keys other_get cfg = get_public_keys http_get cfg).
Proof.
  intros http_get cfg. unfold get_public_keys, truthy. repeat split.
  - destruct (OIDC_ISSUER cfg) as [[|c r]|]; [reflexivity | discriminate | reflexivity].
  - destruct (OIDC_ISSUER cfg) as [[|c r]|]; try discriminate.
    destruct (http_get (String c r ++ "/protocol/openid-connect/certs"))
      as [[code body_]|] eqn:E; [|discriminate].
    destruct (code =? 200) eqn:Hc; [|discriminate].
    intros H; inversion H; subst. apply Z.eqb_eq in Hc. subst.
    exists (String c r). repeat split; [discriminate | exact E].
  - intros [issuer [Hi [Hne Hg]]]. rewrite Hi.
    destruct issuer as [|c r]; [contradiction|]. rewrite Hg. reflexivity.
  - intros other_get Hsame.
    destruct (OIDC_ISSUER cfg) as [[|c r]|] eqn:Hi; try reflexivity.
    rewrite (Hsame (String c r) eq_refl). reflexivity.
Qed.

(** ** The switch that disables authentication *)

Section AuthSwitch.

Lemma lower_char_t (c : ascii) :
  lower_char c = "t"%char <-> c = "t"%char \/ c = "T"%char.
Proof.
  destruct c as [[] [] [] [] [] [] [] []]; vm_compute;
    split; intros H; try discriminate; auto;
    destruct H as [H | H]; discriminate.
Qed.

Lemma lower_char_r (c : ascii) :
  lower_char c = "r"%char <-> c = "r"%char \/ c = "R"%char.
Proof.
  destruct c as [[] [] [] [] [] [] [] []]; vm_compute;
    split; intros H; try discriminate; auto;
    destruct H as [H | H]; discriminate.
Qed.

Lemma lower_char_u (c : ascii) :
  lower_char c = "u"%char <-> c = "u"%char \/ c = "U"%char.
Proof.
  destruct c as [[] [] [] [] [] [] [] []]; vm_compute;
    split; intros H; try discriminate; auto;
    destruct H as [H | H]; discriminate.
Qed.

Lemma lower_char_e (c : ascii) :
  lower_char c = "e"%char <-> c = "e"%char \/ c = "E"%char.
Proof.
  destruct c as [[] [] [] [] [] [] [] []]; vm_compute;
    split; intros H; try discriminate; auto;
    destruct H as [H | H]; discriminate.
Qed.

Lemma lower_is_true (v : string) :
  lower v = "true" <->
  exists c1 c2 c3 c4,
    v = String c1 (String c2 (String c3 (String c4 EmptyString)))
    /\ (c1 = "t"%char \/ c1 = "T"%char) /\ (c2 = "r"%char \/ c2 = "R"%char)
    /\ (c3 = "u"%char \/ c3 = "U"%char) /\ (c4 = "e"%char \/ c4 = "E"%char).
Proof.
  split.
  - destruct v as [|c1 [|c2 [|c3 [|c4 [|c5 v]]]]]; simpl; try discriminate.
    intros H. injection H as H1 H2 H3 H4.
    exists c1, c2, c3, c4. split; [reflexivity|].
    split; [apply lower_char_t, H1|]. split; [apply lower_char_r, H2|].
    split; [apply lower_char_u, H3 | apply lower_char_e, H4].
  - intros [c1 [c2 [c3 [c4 [-> [H1 [H2 [H3 H4]]]]]]]].
    apply lower_char_t in H1. apply lower_char_r in H2.
    apply lower_char_u in H3. apply lower_char_e in H4.
    simpl. rewrite H1, H2, H3, H4. reflexivity.
Qed.

End AuthSwitch.

(** Authentication is disabled exactly when the environment variable
    AUTH_DISABLED is one of the sixteen spellings of "true" in upper and
    lower case; unset, or set to anything else ("1", "yes", "true" with a
    blank), it leaves authentication enabled. *)
Theorem auth_disabled_only_by_true :
  forall (value oidc_issuer : option string),
    (AUTH_DISABLED (Environment.from_env value oidc_issuer) = true
     <-> exists c1 c2 c3 c4,
           value = Some (String c1 (String c2 (String c3 (String c4 EmptyString))))
           /\ (c1 = "t"%char \/ c1 = "T"%char) /\ (c2 = "r"%char \/ c2 = "R"%char)
           /\ (c3 = "u"%char \/ c3 = "U"%char) /\ (c4 = "e"%char \/ c4 = "E"%char))
    /\ AUTH_DISABLED (Environment.from_env None oidc_issuer) = false
    /\ AUTH_DISABLED (Environment.from_env (Some "1") oidc_issuer) = false
    /\ AUTH_DISABLED (Environment.from_env (Some "yes") oidc_issuer) = false
    /\ AUTH_DISABLED (Environment.from_env (Some "true ") oidc_issuer) = false.
Proof.
  intros value oidc_issuer. split; [|repeat split].
  unfold Environment.from_env, Environment.auth_disabled_of. simpl.
  rewrite String.eqb_eq. destruct value as [v|].
  - rewrite lower_is_true. split.
    + intros [c1 [c2 [c3 [c4 [-> H]]]]]. exists c1, c2, c3, c4. auto.
    + intros [c1 [c2 [c3 [c4 [Hv H]]]]]. inversion Hv; subst.
      exists c1, c2, c3, c4. auto.
  - split; [discriminate|]. intros [c1 [c2 [c3 [c4 [Hv _]]]]]. discriminate.
Qed.
